(** * Windowed SLO publisher: a shallow embedding of [windowed_slo.py]

    The module reads SLI definitions (ratios of CloudWatch metrics) from
    the process environment, evaluates every ratio over a trailing window
    and writes it back as a derived metric.

    Python values are embedded as the inductive type [value]; exceptions
    are explicit ([outcome]); the clock, CloudWatch and standard output are
    threaded through a state-and-exception monad [M] whose state survives
    a raised exception, as it does in Python.  Floats are IEEE binary64
    numbers ([PrimFloat]).  The standard library and boto3 are parameters
    ([Builtins], [Services]); everything the module itself defines is
    translated statement by statement. *)

From Stdlib Require Import ZArith List String Ascii Bool Lia DecimalString.
From Stdlib Require Import PrimFloat FloatOps SpecFloat.
Import ListNotations.

Local Open Scope Z_scope.
#[local] Set Warnings "-register-all".

(** ** Python values *)

(** The values that flow through the module: what [json.loads] produces,
    plus [datetime] objects (microseconds since 0001-01-01T00:00:00).
    A [VDict] keeps its items in insertion order; its keys are strings, as
    the keys of every JSON object and of every boto3 response are. *)
Inductive value : Type :=
| VNone
| VBool (b : bool)
| VInt (z : Z)
| VFloat (f : float)
| VStr (s : string)
| VDatetime (us : Z)
| VList (l : list value)
| VDict (d : list (string * value)).

(** The exception classes the module can meet.  A subclass is identified
    with the base class the module's [except] clauses name
    ([json.JSONDecodeError] is a [ValueError], botocore's
    [ParamValidationError] a [BotoCoreError]). *)
Inductive exn : Type :=
| ZeroDivisionError
| OverflowError
| KeyError (key : value)
| IndexError
| TypeError
| ValueError
| AttributeError
| RuntimeError (msg : string)
| ClientError (msg : string)
| BotoCoreError (msg : string).

Inductive outcome (A : Type) : Type :=
| Ok (a : A)
| Raise (e : exn).
Arguments Ok {A} a.
Arguments Raise {A} e.

Definition is_ok {A} (o : outcome A) : bool :=
  match o with Ok _ => true | Raise _ => false end.

(** ** Dictionaries in insertion order *)

Section Dict.
Context {V : Type}.

Fixpoint lookup (k : string) (d : list (string * V)) : option V :=
  match d with
  | [] => None
  | (k', v) :: d' => if String.eqb k k' then Some v else lookup k d'
  end.

(** [d[k] = v]: an existing key keeps its position, a new one goes last. *)
Fixpoint dict_set (k : string) (v : V) (d : list (string * V)) : list (string * V) :=
  match d with
  | [] => [(k, v)]
  | (k', v') :: d' =>
      if String.eqb k k' then (k, v) :: d' else (k', v') :: dict_set k v d'
  end.

Definition has_key (k : string) (d : list (string * V)) : bool :=
  match lookup k d with Some _ => true | None => false end.
End Dict.

Definition mem_string (k : string) (l : list string) : bool :=
  existsb (String.eqb k) l.

(** ** Built-in operations on values *)

(** [bool(v)], as the [if] statements of [SingleMetric] use it. *)
Definition truthy (v : value) : bool :=
  match v with
  | VNone => false
  | VBool b => b
  | VInt z => negb (z =? 0)
  | VFloat f => negb (PrimFloat.eqb f 0%float)
  | VStr s => negb (String.eqb s EmptyString)
  | VDatetime _ => true
  | VList l => match l with [] => false | _ => true end
  | VDict d => match d with [] => false | _ => true end
  end.

(** Conversion of a Python [int] to [float]: correctly rounded, and an
    [OverflowError] when the integer is beyond the range of a double. *)
Definition float_of_int (z : Z) : outcome float :=
  let f := SF2Prim (binary_normalize prec emax z 0 false) in
  if PrimFloat.is_infinity f then Raise OverflowError else Ok f.

Definition float_of_bool (b : bool) : float :=
  if b then 1%float else 0%float.

(** The float a [float] operation takes for its other operand: a float, or
    an [int] (a [bool] is one) converted to float; anything else is a
    [TypeError]. *)
Definition float_operand (x : value) : outcome float :=
  match x with
  | VFloat f => Ok f
  | VInt z => float_of_int z
  | VBool b => Ok (float_of_bool b)
  | _ => Raise TypeError
  end.

(** [a + x] for a float [a], as [total += x] computes it. *)
Definition float_add (a : float) (x : value) : outcome float :=
  match float_operand x with
  | Ok f => Ok (PrimFloat.add a f)
  | Raise e => Raise e
  end.

(** [a / b] on floats: Python raises when the divisor compares equal to
    zero (either sign); nothing is rounded beyond IEEE division and nothing
    is clamped. *)
Definition float_div (a b : float) : outcome float :=
  if PrimFloat.eqb b 0%float then Raise ZeroDivisionError
  else Ok (PrimFloat.div a b).

(** Index normalisation of [seq[i]]. *)
Definition seq_index {A} (l : list A) (i : Z) : option A :=
  let n := Z.of_nat (List.length l) in
  let j := if i <? 0 then i + n else i in
  if (0 <=? j) && (j <? n) then nth_error l (Z.to_nat j) else None.

Definition hashable (v : value) : bool :=
  match v with VList _ | VDict _ => false | _ => true end.

(** [obj[key]].  A string is indexed by character, one character per
    element of the Rocq string. *)
Definition subscript (obj key : value) : outcome value :=
  match obj with
  | VDict d =>
      match key with
      | VStr k =>
          match lookup k d with
          | Some v => Ok v
          | None => Raise (KeyError key)
          end
      | _ => if hashable key then Raise (KeyError key) else Raise TypeError
      end
  | VList l =>
      match key with
      | VInt i =>
          match seq_index l i with Some v => Ok v | None => Raise IndexError end
      | VBool b =>
          match seq_index l (Z.b2z b) with Some v => Ok v | None => Raise IndexError end
      | _ => Raise TypeError
      end
  | VStr s =>
      match key with
      | VInt i =>
          match seq_index (list_ascii_of_string s) i with
          | Some c => Ok (VStr (String c EmptyString))
          | None => Raise IndexError
          end
      | VBool b =>
          match seq_index (list_ascii_of_string s) (Z.b2z b) with
          | Some c => Ok (VStr (String c EmptyString))
          | None => Raise IndexError
          end
      | _ => Raise TypeError
      end
  | _ => Raise TypeError
  end.

(** The items a [for] loop (or a comprehension) draws from a value. *)
Definition iterate (v : value) : outcome (list value) :=
  match v with
  | VList l => Ok l
  | VDict d => Ok (map (fun kv => VStr (fst kv)) d)
  | VStr s => Ok (map (fun c => VStr (String c EmptyString)) (list_ascii_of_string s))
  | _ => Raise TypeError
  end.

(** Binding of a call whose keyword arguments are unpacked from [m]: [m]
    must be a mapping, every key a parameter name, every parameter without
    default present; anything else is a [TypeError]. *)
Definition bind_kwargs (params required : list string) (m : value)
  : outcome (list (string * value)) :=
  match m with
  | VDict d =>
      if forallb (fun kv => mem_string (fst kv) params) d
         && forallb (fun k => has_key k d) required
      then Ok d
      else Raise TypeError
  | _ => Raise TypeError
  end.

Definition kwarg (k : string) (default : value) (kw : list (string * value)) : value :=
  match lookup k kw with Some v => v | None => default end.

(** ** Time *)

Definition us_per_day : Z := 86400 * 1000000.

(** [datetime.max], 9999-12-31T23:59:59.999999. *)
Definition datetime_max : Z := 3652059 * us_per_day - 1.

(** [t - delta] on a [datetime] and a [timedelta], both in microseconds. *)
Definition datetime_sub (t delta : Z) : outcome Z :=
  let r := t - delta in
  if (0 <=? r) && (r <=? datetime_max) then Ok r else Raise OverflowError.

(** ** What the module is linked against *)

(** Library functions whose results the module only passes on. *)
Record Builtins : Type := {
  (** [int(s)] on a string; [None] stands for its [ValueError]. *)
  int_of_str : string -> option Z;
  (** [float(s)] on a string; [None] stands for its [ValueError]. *)
  float_of_str : string -> option float;
  (** [json.loads(s)]; [None] stands for [json.JSONDecodeError]. *)
  json_loads : string -> option value;
  (** [datetime.timedelta(days=f)] for a float [f], in microseconds. *)
  timedelta_of_float_days : float -> outcome Z;
  (** [str(e)] for an exception. *)
  str_of_exn : exn -> string;
  (** ["%f" % x]. *)
  format_f : float -> string
}.

(** What a boto3 client call raises. *)
Inductive botocore_exception : Type :=
| ClientErr (msg : string)
| BotoCoreErr (msg : string).

Definition exn_of_botocore (b : botocore_exception) : exn :=
  match b with
  | ClientErr msg => ClientError msg
  | BotoCoreErr msg => BotoCoreError msg
  end.

(** The outside world: the clock and CloudWatch, as a deterministic
    transition system over an arbitrary state.  A call receives its keyword
    arguments as a dictionary.  [Cloudwatch.client()] creates the client on
    first use and reuses it afterwards; its creation is part of the
    transition of the call that triggers it, and a failure to create it
    is a botocore exception of that transition. *)
Record Services (World : Type) : Type := {
  utcnow : World -> Z * World;
  get_metric_statistics :
    list (string * value) -> World -> (botocore_exception + value) * World;
  put_metric_data :
    list (string * value) -> World -> (botocore_exception + value) * World
}.
Arguments utcnow {World} _ _.
Arguments get_metric_statistics {World} _ _ _.
Arguments put_metric_data {World} _ _ _.

(** What an invocation does that can be seen from outside, oldest first.
    [EvGet] and [EvPut] stand for the statements
    [Cloudwatch.client().get_metric_statistics(...)] and
    [Cloudwatch.client().put_metric_data(...)]: an attempt at the call,
    which makes the call unless the client cannot be created. *)
Inductive event : Type :=
| EvPrint (line : string)
| EvGet (kwargs : list (string * value))
| EvPut (kwargs : list (string * value)).

Record state (World : Type) : Type := {
  world : World;
  events : list event
}.
Arguments world {World} _.
Arguments events {World} _.

(** ** The monad of the module's code *)

Section Monad.
Context {World : Type}.

Definition M (A : Type) : Type := state World -> outcome A * state World.

Definition ret {A} (a : A) : M A := fun s => (Ok a, s).

Definition raise {A} (e : exn) : M A := fun s => (Raise e, s).

Definition bind {A B} (m : M A) (k : A -> M B) : M B :=
  fun s =>
    match m s with
    | (Ok a, s') => k a s'
    | (Raise e, s') => (Raise e, s')
    end.

Definition lift {A} (o : outcome A) : M A := fun s => (o, s).

(** [try: body / except ...: handler]: [handlers e] is the body of the
    first [except] clause that matches [e], if any. *)
Definition try_except {A} (body : M A) (handlers : exn -> option (M A)) : M A :=
  fun s =>
    match body s with
    | (Ok a, s') => (Ok a, s')
    | (Raise e, s') =>
        match handlers e with
        | Some h => h s'
        | None => (Raise e, s')
        end
    end.

Definition emit (ev : event) : M unit :=
  fun s => (Ok tt, {| world := world s; events := events s ++ [ev] |}).

Definition print (line : string) : M unit := emit (EvPrint line).

(** A loop that carries a value from one iteration to the next; a raised
    exception leaves the loop. *)
Fixpoint foldM {A B} (f : B -> A -> M B) (xs : list A) (acc : B) : M B :=
  match xs with
  | [] => ret acc
  | x :: xs' => bind (f acc x) (foldM f xs')
  end.

Definition for_each {A} (body : A -> M unit) (xs : list A) : M unit :=
  foldM (fun _ x => body x) xs tt.

(** A list comprehension. *)
Fixpoint mapM {A B} (f : A -> M B) (xs : list A) : M (list B) :=
  match xs with
  | [] => ret []
  | x :: xs' =>
      bind (f x) (fun y => bind (mapM f xs') (fun ys => ret (y :: ys)))
  end.
End Monad.

Declare Scope py_scope.
Delimit Scope py_scope with py.
Notation "x <- c ;; k" := (bind c (fun x => k))
  (at level 61, c at next level, right associativity) : py_scope.
Notation "c ;;; k" := (bind c (fun _ => k))
  (at level 61, right associativity) : py_scope.
Local Open Scope py_scope.

(** ** Module-level configuration *)

(** The four module-level names bound from the process environment. *)
Record globals : Type := {
  SLI_NAMESPACE : option string;
  SLI_PREFIX : option string;
  SLIS : option string;
  WINDOW_DAYS : Z
}.

(** ** The objects of the module *)

Record SingleMetric : Type := {
  namespace : value;
  metric_name : value;
  dimensions : value;
  statistic : value;
  extended_statistic : value;
  multiplier : float;
  stat_args : list (string * value)
}.

Record CompositeMetric : Type := {
  metrics : list SingleMetric
}.

Record SLI : Type := {
  numerator : CompositeMetric;
  denominator : CompositeMetric
}.

Definition single_metric_params : list string :=
  ["namespace"; "metric_name"; "dimensions"; "statistic";
   "extended_statistic"; "multiplier"]%string.

Definition single_metric_required : list string :=
  ["namespace"; "metric_name"; "dimensions"]%string.

Definition sli_params : list string :=
  ["numerator"; "denominator"; "window_days"]%string.

Definition sli_required : list string :=
  ["numerator"; "denominator"]%string.

Fixpoint repeat_string (s : string) (n : nat) : string :=
  match n with
  | O => EmptyString
  | S n' => String.append s (repeat_string s n')
  end.

(** [v * k] for an [int] literal [k]. *)
Definition py_mul_int (v : value) (k : Z) : outcome value :=
  match v with
  | VInt z => Ok (VInt (z * k))
  | VBool b => Ok (VInt (Z.b2z b * k))
  | VFloat f =>
      match float_of_int k with
      | Ok g => Ok (VFloat (PrimFloat.mul f g))
      | Raise e => Raise e
      end
  | VStr s => Ok (VStr (repeat_string s (Z.to_nat k)))
  | VList l => Ok (VList (List.concat (List.repeat l (Z.to_nat k))))
  | _ => Raise TypeError
  end.

(** [SingleMetric.extract_stat]. *)
Definition extract_stat (m : SingleMetric) (datapoint : value) : outcome value :=
  if truthy (extended_statistic m) then
    match subscript datapoint (VStr "ExtendedStatistics") with
    | Ok ext => subscript ext (extended_statistic m)
    | Raise e => Raise e
    end
  else subscript datapoint (statistic m).

(** The keyword arguments [SingleMetric.sum] passes to
    [get_metric_statistics]. *)
Definition request (m : SingleMetric) : list (string * value) :=
  [("Namespace"%string, namespace m);
   ("MetricName"%string, metric_name m);
   ("Dimensions"%string, dimensions m)] ++ stat_args m.

Section Program.
Context {World : Type} (py : Builtins) (svc : Services World).

(** [float(v)]. *)
Definition py_float (v : value) : outcome float :=
  match v with
  | VFloat f => Ok f
  | VInt z => float_of_int z
  | VBool b => Ok (float_of_bool b)
  | VStr s =>
      match float_of_str py s with
      | Some f => Ok f
      | None => Raise ValueError
      end
  | _ => Raise TypeError
  end.

(** [datetime.timedelta(days=v)], in microseconds. *)
Definition timedelta_days (v : value) : outcome Z :=
  match v with
  | VInt z =>
      if Z.abs z <=? 999999999 then Ok (z * us_per_day) else Raise OverflowError
  | VBool b => Ok (Z.b2z b * us_per_day)
  | VFloat f => timedelta_of_float_days py f
  | _ => Raise TypeError
  end.

Definition now : M Z :=
  fun s =>
    let '(t, w) := utcnow svc (world s) in
    (Ok t, {| world := w; events := events s |}).

Definition cloudwatch_get (kwargs : list (string * value)) : M value :=
  fun s =>
    let '(r, w) := get_metric_statistics svc kwargs (world s) in
    let s' := {| world := w; events := events s ++ [EvGet kwargs] |} in
    match r with
    | inl b => (Raise (exn_of_botocore b), s')
    | inr v => (Ok v, s')
    end.

Definition cloudwatch_put (kwargs : list (string * value)) : M value :=
  fun s =>
    let '(r, w) := put_metric_data svc kwargs (world s) in
    let s' := {| world := w; events := events s ++ [EvPut kwargs] |} in
    match r with
    | inl b => (Raise (exn_of_botocore b), s')
    | inr v => (Ok v, s')
    end.

(** [SingleMetric.__init__(self, window_days, **m)]. *)
Definition SingleMetric_init (window_days : value) (m : value) : M SingleMetric :=
  kw <- lift (bind_kwargs single_metric_params single_metric_required m) ;;
  let statistic0 := kwarg "statistic" VNone kw in
  let extended := kwarg "extended_statistic" VNone kw in
  mult <- lift (py_float (kwarg "multiplier" (VFloat 1%float) kw)) ;;
  t0 <- now ;;
  delta <- lift (timedelta_days window_days) ;;
  start <- lift (datetime_sub t0 delta) ;;
  t1 <- now ;;
  h <- lift (py_mul_int window_days 24) ;;
  mi <- lift (py_mul_int h 60) ;;
  period <- lift (py_mul_int mi 60) ;;
  let args :=
    [("StartTime"%string, VDatetime start);
     ("EndTime"%string, VDatetime t1);
     ("Period"%string, period)] in
  let mk stat extra :=
    {| namespace := kwarg "namespace" VNone kw;
       metric_name := kwarg "metric_name" VNone kw;
       dimensions := kwarg "dimensions" VNone kw;
       statistic := stat;
       extended_statistic := extended;
       multiplier := mult;
       stat_args := args ++ [extra] |} in
  if truthy extended then
    ret (mk statistic0 ("ExtendedStatistics"%string, VList [extended]))
  else if truthy statistic0 then
    ret (mk statistic0 ("Statistics"%string, VList [statistic0]))
  else
    ret (mk (VStr "Sum") ("Statistics"%string, VList [VStr "Sum"])).

(** [SingleMetric.sum]. *)
Definition SingleMetric_sum (m : SingleMetric) : M float :=
  resp <- cloudwatch_get (request m) ;;
  datapoints <- lift (subscript resp (VStr "Datapoints")) ;;
  items <- lift (iterate datapoints) ;;
  total <- foldM (fun total datapoint =>
                    x <- lift (extract_stat m datapoint) ;;
                    lift (float_add total x))
                 items 0%float ;;
  ret (PrimFloat.mul total (multiplier m)).

(** [CompositeMetric.__init__]. *)
Definition CompositeMetric_init (window_days : value) (ms : value) : M CompositeMetric :=
  items <- lift (iterate ms) ;;
  l <- mapM (SingleMetric_init window_days) items ;;
  ret {| metrics := l |}.

(** [CompositeMetric.sum]. *)
Definition CompositeMetric_sum (c : CompositeMetric) : M float :=
  foldM (fun total m => x <- SingleMetric_sum m ;; ret (PrimFloat.add total x))
        (metrics c) 0%float.

(** [SLI.__init__(self, **sli_config)]; [window_days] defaults to the
    module's [WINDOW_DAYS], also when it is passed as [None]. *)
Definition SLI_init (g : globals) (sli_config : value) : M SLI :=
  kw <- lift (bind_kwargs sli_params sli_required sli_config) ;;
  let window_days :=
    match kwarg "window_days" (VInt (WINDOW_DAYS g)) kw with
    | VNone => VInt (WINDOW_DAYS g)
    | v => v
    end in
  n <- CompositeMetric_init window_days (kwarg "numerator" VNone kw) ;;
  d <- CompositeMetric_init window_days (kwarg "denominator" VNone kw) ;;
  ret {| numerator := n; denominator := d |}.

(** [SLI.get_ratio]. *)
Definition get_ratio (sli : SLI) : M float :=
  n <- CompositeMetric_sum (numerator sli) ;;
  d <- CompositeMetric_sum (denominator sli) ;;
  lift (float_div n d).
End Program.

(** The exceptions [publish_slis] catches around [get_ratio]. *)
Definition publish_catches (e : exn) : bool :=
  match e with
  | ZeroDivisionError | ClientError _ | BotoCoreError _ => true
  | _ => false
  end.

(** The exceptions [parse_sli_json] catches around the construction of an
    SLI. *)
Definition parse_catches (e : exn) : bool :=
  match e with
  | KeyError _ | TypeError | ValueError => true
  | _ => false
  end.

(** The keyword arguments [publish_slis] passes to [put_metric_data]. *)
Definition metric_data_kwargs (sli_namespace sli_prefix sli_name : string)
           (ratio : float) : list (string * value) :=
  [("Namespace"%string, VStr sli_namespace);
   ("MetricData"%string,
     VList [VDict [("MetricName"%string,
                     VStr (sli_prefix ++ "-" ++ sli_name)%string);
                   ("Value"%string, VFloat ratio)]])].

Section Handler.
Context {World : Type} (py : Builtins) (svc : Services World).

Definition ratio_line (sli_name : string) (ratio : float) : string :=
  (sli_name ++ ": " ++ format_f py ratio)%string.

Definition parse_error_line (sli_name : string) (e : exn) : string :=
  ("Skipping malformed SLI " ++ sli_name ++ ": " ++ str_of_exn py e)%string.

(** The [except] clauses of [publish_slis]: each prints a line and goes
    on to the next SLI ([None]: nothing to write). *)
Definition publish_handlers (sli_name : string) (e : exn)
  : option (@M World (option float)) :=
  match e with
  | ZeroDivisionError =>
      Some (print ("x/0 error for " ++ sli_name)%string ;;; ret None)
  | ClientError _ | BotoCoreError _ =>
      Some (print ("CloudWatch API error for " ++ sli_name ++ ": "
                   ++ str_of_exn py e)%string ;;; ret None)
  | _ => None
  end.

(** One iteration of the loop of [publish_slis]. *)
Definition publish_sli (sli_namespace sli_prefix : string)
           (item : string * SLI) : M unit :=
  let '(sli_name, sli) := item in
  r <- try_except (value <- get_ratio svc sli ;; ret (Some value))
                  (publish_handlers sli_name) ;;
  match r with
  | None => ret tt
  | Some value =>
      print (ratio_line sli_name value) ;;;
      _ <- cloudwatch_put svc
             (metric_data_kwargs sli_namespace sli_prefix sli_name value) ;;
      ret tt
  end.

(** [publish_slis]. *)
Definition publish_slis (slis : list (string * SLI))
           (sli_namespace sli_prefix : string) : M unit :=
  for_each (publish_sli sli_namespace sli_prefix) slis.

(** [sli_configs.items()]. *)
Definition dict_items (v : value) : outcome (list (string * value)) :=
  match v with
  | VDict d => Ok d
  | _ => Raise AttributeError
  end.

(** The [except (KeyError, TypeError, ValueError)] clause of
    [parse_sli_json]: it prints a line and leaves [slis] as it is. *)
Definition parse_handlers (sli_name : string) (slis : list (string * SLI))
           (e : exn) : option (@M World (list (string * SLI))) :=
  if parse_catches e
  then Some (print (parse_error_line sli_name e) ;;; ret slis)
  else None.

(** One iteration of the loop of [parse_sli_json]. *)
Definition parse_sli (g : globals) (slis : list (string * SLI))
           (item : string * value) : M (list (string * SLI)) :=
  let '(sli_name, sli_config) := item in
  try_except (sli <- SLI_init py svc g sli_config ;;
              ret (dict_set sli_name sli slis))
             (parse_handlers sli_name slis).

(** The loop of [parse_sli_json], on the loaded configuration. *)
Definition parse_sli_configs (g : globals) (sli_configs : value)
  : M (list (string * SLI)) :=
  items <- lift (dict_items sli_configs) ;;
  foldM (parse_sli g) items [].

(** [parse_sli_json]. *)
Definition parse_sli_json (g : globals) (sli_json : string)
  : M (list (string * SLI)) :=
  sli_configs <- lift (match json_loads py sli_json with
                       | Some v => Ok v
                       | None => Raise ValueError
                       end) ;;
  parse_sli_configs g sli_configs.

(** [lambda_handler]. *)
Definition lambda_handler (g : globals) (event context : value) : M unit :=
  match SLI_NAMESPACE g with
  | None => raise (RuntimeError "SLI_NAMESPACE not set in environment")
  | Some sli_namespace =>
      match SLI_PREFIX g with
      | None => raise (RuntimeError "SLI_PREFIX not set in environment")
      | Some sli_prefix =>
          match SLIS g with
          | None =>
              raise (RuntimeError "SLIS definition JSON not set in environment")
          | Some sli_json =>
              slis <- parse_sli_json g sli_json ;;
              publish_slis slis sli_namespace sli_prefix
          end
      end
  end.

(** The statements at module level that bind the configuration:
    [os.getenv] gives [None] for a missing name, and [int(None)] is a
    [TypeError]. *)
Definition module_globals (environ : list (string * string)) : outcome globals :=
  match lookup "WINDOW_DAYS" environ with
  | None => Raise TypeError
  | Some t =>
      match int_of_str py t with
      | None => Raise ValueError
      | Some days =>
          Ok {| SLI_NAMESPACE := lookup "SLI_NAMESPACE" environ;
                SLI_PREFIX := lookup "SLI_PREFIX" environ;
                SLIS := lookup "SLIS" environ;
                WINDOW_DAYS := days |}
      end
  end.

(** [main]. *)
Definition main (g : globals) : M unit := lambda_handler g VNone VNone.

(** An invocation: the module is loaded, then the handler runs. *)
Definition invocation (environ : list (string * string)) : M unit :=
  g <- lift (module_globals environ) ;;
  main g.
End Handler.

(** ** What a run did *)

(** The keyword arguments of the writes among the events. *)
Definition puts (evs : list event) : list (list (string * value)) :=
  flat_map (fun ev => match ev with EvPut kwargs => [kwargs] | _ => [] end) evs.

(** The lines printed among the events. *)
Definition printed (evs : list event) : list string :=
  flat_map (fun ev => match ev with EvPrint line => [line] | _ => [] end) evs.

(** The queries among the events. *)
Definition is_get (ev : event) : bool :=
  match ev with EvGet _ => true | _ => false end.

(** No event at all. *)
Definition no_event (ev : event) : bool := false.

(** A keyword argument of [SingleMetric] counts as supplied when it is
    passed with a true value, which is what [if extended_statistic:] and
    [elif statistic:] test; [None] and the empty string supply nothing. *)
Definition supplied (k : string) (kw : list (string * value)) : bool :=
  truthy (kwarg k VNone kw).

(** The statistic [extract_stat] reads is missing from a datapoint. *)
Definition stat_key_absent (m : SingleMetric) (datapoint : value) : bool :=
  match datapoint with
  | VDict d =>
      if truthy (extended_statistic m) then
        match lookup "ExtendedStatistics" d, extended_statistic m with
        | None, _ => true
        | Some (VDict ext), VStr k => negb (has_key k ext)
        | Some _, _ => false
        end
      else
        match statistic m with
        | VStr k => negb (has_key k d)
        | _ => false
        end
  | _ => false
  end.

(** The statistic a metric specification configures, read off the
    specification alone: the extended statistic when one is supplied, else
    the standard statistic when one is supplied, else [Sum].  It is what
    the statistic read by [extract_stat] on the constructed metric is
    compared with. *)
Definition configured_statistic (spec : list (string * value)) : value :=
  if supplied "extended_statistic" spec then kwarg "extended_statistic" VNone spec
  else if supplied "statistic" spec then kwarg "statistic" VNone spec
  else VStr "Sum".

(** The value of the configured statistic on a datapoint: an extended
    statistic is found under ["ExtendedStatistics"], a standard one on the
    datapoint itself. *)
Definition configured_value (spec : list (string * value)) (datapoint : value)
  : outcome value :=
  if supplied "extended_statistic" spec then
    match subscript datapoint (VStr "ExtendedStatistics") with
    | Ok found => subscript found (configured_statistic spec)
    | Raise e => Raise e
    end
  else subscript datapoint (configured_statistic spec).

Section Windows.
Context {World : Type} (svc : Services World).

(** The world after the clock has been read for [n] metrics, twice for
    each. *)
Fixpoint after_metrics (n : nat) (w : World) : World :=
  match n with
  | O => w
  | S n' => after_metrics n' (snd (utcnow svc (snd (utcnow svc w))))
  end.

(** The metrics [ms] are those of the specifications [specs], one for one
    and in order, each over a window of [days] days, constructed one after
    the other from the world [w]: the query of each carries the namespace,
    name and dimensions of its specification, one period as long as the
    window, a start [days] days before the first of its two readings of
    the clock, and its second reading as the end. *)
Fixpoint constructed_in_turn (days : Z) (specs : list value)
         (ms : list SingleMetric) (w : World) : Prop :=
  match specs, ms with
  | [], [] => True
  | spec :: specs', m :: ms' =>
      let first := utcnow svc w in
      let second := utcnow svc (snd first) in
      (exists kw,
         spec = VDict kw /\
         lookup "Namespace" (request m) = Some (kwarg "namespace" VNone kw) /\
         lookup "MetricName" (request m) = Some (kwarg "metric_name" VNone kw) /\
         lookup "Dimensions" (request m) = Some (kwarg "dimensions" VNone kw)) /\
      lookup "Period" (request m) = Some (VInt (days * 24 * 60 * 60)) /\
      lookup "StartTime" (request m)
      = Some (VDatetime (fst first - days * us_per_day)) /\
      lookup "EndTime" (request m) = Some (VDatetime (fst second)) /\
      constructed_in_turn days specs' ms' (snd second)
  | _, _ => False
  end.
End Windows.

Section Footprint.
Context {World : Type}.

(** Which exceptions a computation can raise. *)
Definition raises_only {A} (P : exn -> Prop) (m : @M World A) : Prop :=
  forall s e s', m s = (Raise e, s') -> P e.

(** Which events a computation can add. *)
Definition emits_only {A} (P : event -> bool) (m : @M World A) : Prop :=
  forall s, exists evs,
    events (snd (m s)) = events s ++ evs /\ forallb P evs = true.
End Footprint.

Definition not_zero_division (e : exn) : Prop := e <> ZeroDivisionError.

Section Attempts.
Context {World : Type} (py : Builtins) (svc : Services World).

(** What happens to one entry of the configuration when its construction
    is attempted: the outcome of [SLI(...)] and, when that is an exception
    [parse_sli_json] catches, the line it prints. *)
Definition parse_attempt (g : globals) (item : string * value)
           (s : state World) : outcome SLI * state World :=
  let '(r, s1) := SLI_init py svc g (snd item) s in
  match r with
  | Ok _ => (r, s1)
  | Raise e =>
      (r, if parse_catches e
          then snd (print (parse_error_line py (fst item) e) s1)
          else s1)
  end.

(** Every entry attempted in turn, whatever happens to the others. *)
Fixpoint parse_attempts (g : globals) (items : list (string * value))
         (s : state World) : list (string * outcome SLI) * state World :=
  match items with
  | [] => ([], s)
  | item :: rest =>
      let '(r, s1) := parse_attempt g item s in
      let '(rs, s2) := parse_attempts g rest s1 in
      ((fst item, r) :: rs, s2)
  end.

(** An attempt [parse_sli_json] survives: a construction that returned, or
    raised an exception it catches. *)
Definition parse_survivable (r : string * outcome SLI) : bool :=
  match snd r with
  | Ok _ => true
  | Raise e => parse_catches e
  end.

(** The entries whose construction returned, with what it returned. *)
Fixpoint constructed (rs : list (string * outcome SLI)) : list (string * SLI) :=
  match rs with
  | [] => []
  | (name, Ok sli) :: rs' => (name, sli) :: constructed rs'
  | (_, Raise _) :: rs' => constructed rs'
  end.

(** The diagnostics of the entries whose construction raised. *)
Fixpoint skipped_lines (rs : list (string * outcome SLI)) : list string :=
  match rs with
  | [] => []
  | (_, Ok _) :: rs' => skipped_lines rs'
  | (name, Raise e) :: rs' => parse_error_line py name e :: skipped_lines rs'
  end.

(** What happens to one SLI when its publication is attempted: the
    outcome of [get_ratio] and, when that is a value, the outcome of the
    write. *)
Definition publish_attempt (sli_namespace sli_prefix : string)
           (item : string * SLI) (s : state World)
  : (outcome float * option (outcome value)) * state World :=
  let '(r, s1) := get_ratio svc (snd item) s in
  match r with
  | Ok v =>
      let '(w, s2) :=
        (print (ratio_line py (fst item) v) ;;;
         cloudwatch_put svc
           (metric_data_kwargs sli_namespace sli_prefix (fst item) v)) s1 in
      ((r, Some w), s2)
  | Raise e =>
      ((r, None),
       match publish_handlers py (fst item) e with
       | Some h => snd (h s1)
       | None => s1
       end)
  end.

(** Every SLI attempted in turn, whatever happens to the others. *)
Fixpoint publish_attempts (sli_namespace sli_prefix : string)
         (slis : list (string * SLI)) (s : state World)
  : list (string * (outcome float * option (outcome value))) * state World :=
  match slis with
  | [] => ([], s)
  | item :: rest =>
      let '(r, s1) := publish_attempt sli_namespace sli_prefix item s in
      let '(rs, s2) := publish_attempts sli_namespace sli_prefix rest s1 in
      ((fst item, r) :: rs, s2)
  end.

(** An attempt [publish_slis] survives: a failure of [get_ratio] that it
    catches, or a value whose write went through. *)
Definition survivable (r : string * (outcome float * option (outcome value))) : bool :=
  match snd r with
  | (Ok _, Some (Ok _)) => true
  | (Ok _, _) => false
  | (Raise e, _) => publish_catches e
  end.

(** The writes of the attempts that produced a value. *)
Fixpoint expected_puts (sli_namespace sli_prefix : string)
         (rs : list (string * (outcome float * option (outcome value))))
  : list (list (string * value)) :=
  match rs with
  | [] => []
  | (name, (Ok v, _)) :: rs' =>
      metric_data_kwargs sli_namespace sli_prefix name v
      :: expected_puts sli_namespace sli_prefix rs'
  | (_, (Raise _, _)) :: rs' => expected_puts sli_namespace sli_prefix rs'
  end.
End Attempts.

(** The values [datetime.timedelta(days=...)] takes: [int] (a [bool] is
    one) and [float]. *)
Definition is_number (v : value) : bool :=
  match v with
  | VInt _ | VBool _ | VFloat _ => true
  | _ => false
  end.

(** The printed lines among the events. *)
Definition is_print (ev : event) : bool :=
  match ev with EvPrint _ => true | _ => false end.

Section Frame.
Context {World : Type}.
(** A computation whose outcome and whose effect on the world depend on the
    world alone, not on the events so far, and that only adds events. *)
Definition world_only {A} (m : @M World A) : Prop :=
  forall s t,
    world s = world t ->
    fst (m s) = fst (m t) /\
    world (snd (m s)) = world (snd (m t)) /\
    exists evs,
      events (snd (m s)) = events s ++ evs /\
      events (snd (m t)) = events t ++ evs.
End Frame.


(** ** The CloudWatch client *)

(** The class [Cloudwatch]: its attribute [cloudwatch_client] holds the
    client once [boto3.client] has made it.  The state is the attribute
    paired with the world [boto3.client] acts on. *)
Module Cloudwatch.
Section Client.
Context {World Client : Type}.
Variable boto3_client :
  string -> World -> (botocore_exception + Client) * World.

(** [Cloudwatch.client()]. *)
Definition client (st : option Client * World)
  : (botocore_exception + Client) * (option Client * World) :=
  match fst st with
  | None =>
      match boto3_client "cloudwatch" (snd st) with
      | (inr c, w) => (inr c, (Some c, w))
      | (inl b, w) => (inl b, (None, w))
      end
  | Some c => (inr c, st)
  end.

(** A number of calls in a row; the results, oldest first. *)
Fixpoint clients (n : nat) (st : option Client * World)
  : list (botocore_exception + Client) * (option Client * World) :=
  match n with
  | O => ([], st)
  | S n' =>
      let '(r, st1) := client st in
      let '(rs, st2) := clients n' st1 in
      (r :: rs, st2)
  end.
End Client.
End Cloudwatch.

(** ** A concrete runtime for the examples *)

Module Demo.
Local Open Scope string_scope.

(** 2026-01-01T00:00:00; every reading of the clock advances it by one
    microsecond. *)
Definition epoch : Z := 739616 * us_per_day.

Definition metric_name_of (kwargs : list (string * value)) : string :=
  match lookup "MetricName" kwargs with
  | Some (VStr s) => s
  | _ => ""
  end.

Definition datapoint (stat : string) (x : float) : value :=
  VDict [("Timestamp", VDatetime epoch); (stat, VFloat x); ("Unit", VStr "Count")].

Definition response (datapoints : list value) : value :=
  VDict [("Label", VStr "demo"); ("Datapoints", VList datapoints)].

(** CloudWatch holds seven metrics, each with a fixed answer whatever the
    statistic asked for; a query for any other metric is refused. *)
Definition demo_get (kwargs : list (string * value)) (w : Z)
  : (botocore_exception + value) * Z :=
  let name := metric_name_of kwargs in
  if String.eqb name "Success" then
    (inr (response [datapoint "Sum" 90; datapoint "Sum" 5]), w)
  else if String.eqb name "Total" then
    (inr (response [datapoint "Sum" 100]), w)
  else if String.eqb name "Idle" then
    (inr (response []), w)
  else if String.eqb name "Mean" then
    (inr (response [datapoint "Average" 7]), w)
  else if String.eqb name "Latency" then
    (inr (response [VDict [("ExtendedStatistics", VDict [("p99", VFloat 3)])]]), w)
  else if String.eqb name "Both" then
    (inr (response [VDict [("Sum", VFloat 1000); ("Average", VFloat 7)];
                    VDict [("Sum", VFloat 2000); ("Average", VFloat 9)]]), w)
  else if String.eqb name "Gappy" then
    (inr (response [datapoint "Sum" 4; datapoint "Average" 7; datapoint "Sum" 5]), w)
  else (inl (ClientErr "AccessDenied"), w).

(** Writes to the namespace ["locked"] are refused. *)
Definition demo_put (kwargs : list (string * value)) (w : Z)
  : (botocore_exception + value) * Z :=
  match lookup "Namespace" kwargs with
  | Some (VStr "locked") => (inl (ClientErr "AccessDenied"), w)
  | _ => (inr (VDict []), w)
  end.

Definition demo_services : Services Z :=
  {| utcnow := fun w => (w, w + 1);
     get_metric_statistics := demo_get;
     put_metric_data := demo_put |}.

(** A metric specification as it appears in the configuration. *)
Definition spec_items (name : string) (more : list (string * value))
  : list (string * value) :=
  [("namespace", VStr "app"); ("metric_name", VStr name);
   ("dimensions", VList [])] ++ more.

Definition spec (name : string) (more : list (string * value)) : value :=
  VDict (spec_items name more).

(** An entry of the configuration. *)
Definition entry_items (num den : list value) (more : list (string * value))
  : list (string * value) :=
  [("numerator", VList num); ("denominator", VList den)] ++ more.

Definition entry (num den : list value) (more : list (string * value)) : value :=
  VDict (entry_items num den more).

(** Successes over totals, on a window of one day. *)
Definition availability : value :=
  entry [spec "Success" []] [spec "Total" []] [("window_days", VInt 1)].

(** The same without a window of its own. *)
Definition availability_default : value :=
  entry [spec "Success" []] [spec "Total" []] [].

(** Nothing happened: the total is zero. *)
Definition idle : value :=
  entry [spec "Success" []] [spec "Idle" []] [].

(** Successes over no denominator at all. *)
Definition over_nothing : value :=
  entry [spec "Success" []] [] [].

(** A numerator CloudWatch refuses to serve, over no denominator. *)
Definition refused_over_nothing : value :=
  entry [spec "Restricted" []] [] [].

(** A numerator CloudWatch refuses to serve. *)
Definition refused : value :=
  entry [spec "Restricted" []] [spec "Total" []] [].

(** A numerator read through a statistic its datapoints do not carry. *)
Definition misread : value :=
  entry [spec "Mean" []] [spec "Total" []] [].

(** A window of minus three days and a statistic CloudWatch does not
    know. *)
Definition backwards : value :=
  entry [spec "Success" [("statistic", VStr "Bogus")]] [spec "Total" []]
        [("window_days", VInt (-3))].

(** A window that reaches back before the year 1. *)
Definition prehistoric : value :=
  entry [spec "Success" []] [spec "Total" []] [("window_days", VInt 800000)].

(** An entry without numerator. *)
Definition headless : value :=
  VDict [("denominator", VList [spec "Total" []])].

(** Configurations. *)
Definition unchecked : value := VDict [("backwards", backwards)].

Definition overflowing : value :=
  VDict [("prehistoric", prehistoric); ("availability", availability)].

Definition mixed : value :=
  VDict [("availability", availability); ("headless", headless);
         ("backwards", backwards)].

Definition batch : value :=
  VDict [("availability", availability); ("idle", idle); ("refused", refused);
         ("monthly", availability_default)].

Definition misread_first : value :=
  VDict [("misread", misread); ("availability", availability)].

Definition pair : value :=
  VDict [("availability", availability); ("monthly", availability_default)].

(** An entry that is skipped, then the window that reaches back before
    the year 1, then an entry that constructs. *)
Definition overflowing_later : value :=
  VDict [("headless", headless); ("prehistoric", prehistoric);
         ("availability", availability)].

(** A metric whose datapoints carry [Sum] and [Average], read through
    [Average] and doubled. *)
Definition doubled_average : list (string * value) :=
  spec_items "Both" [("statistic", VStr "Average"); ("multiplier", VInt 2)].

Definition documents : list value :=
  [VDict []; unchecked; overflowing; mixed; batch; misread_first; pair;
   overflowing_later].

Definition quote : string := String (ascii_of_nat 34) EmptyString.

(** The JSON text of a configuration made of strings, integers, lists and
    objects. *)
Fixpoint json_text (v : value) : string :=
  match v with
  | VNone => "null"
  | VBool true => "true"
  | VBool false => "false"
  | VInt z => DecimalString.NilZero.string_of_int (Z.to_int z)
  | VStr s => quote ++ s ++ quote
  | VList l => "[" ++ String.concat ", " (map json_text l) ++ "]"
  | VDict d =>
      "{" ++ String.concat ", "
               (map (fun kv => let '(k, x) := kv in
                               quote ++ k ++ quote ++ ": " ++ json_text x) d)
          ++ "}"
  | VFloat _ | VDatetime _ => ""
  end.

Definition digit_of (c : ascii) : option Z :=
  let n := Z.of_nat (nat_of_ascii c) in
  if ((48 <=? n) && (n <=? 57))%Z then Some (n - 48) else None.

Fixpoint decimal (s : string) (acc : Z) : option Z :=
  match s with
  | EmptyString => Some acc
  | String c s' =>
      match digit_of c with
      | Some d => decimal s' (10 * acc + d)
      | None => None
      end
  end.

(** The library functions, defined on what the examples pass them:
    [int] on unsigned decimal numerals, [json.loads] on the texts of
    [documents]. *)
Definition demo_builtins : Builtins :=
  {| int_of_str := fun s =>
       match s with EmptyString => None | _ => decimal s 0 end;
     float_of_str := fun _ => None;
     json_loads := fun s =>
       find (fun v => String.eqb (json_text v) s) documents;
     timedelta_of_float_days := fun _ => Raise OverflowError;
     str_of_exn := fun e =>
       match e with
       | ZeroDivisionError => "float division by zero"
       | OverflowError => "date value out of range"
       | KeyError _ => "key"
       | IndexError => "index"
       | TypeError => "type"
       | ValueError => "value"
       | AttributeError => "attribute"
       | RuntimeError msg | ClientError msg | BotoCoreError msg => msg
       end;
     format_f := fun _ => "%f" |}.

Definition start : state Z := {| world := epoch; events := [] |}.

Definition demo_globals : globals :=
  {| SLI_NAMESPACE := Some "sli"; SLI_PREFIX := Some "prod";
     SLIS := Some "{}"; WINDOW_DAYS := 30 |}.

Definition no_metric : SingleMetric :=
  {| namespace := VNone; metric_name := VNone; dimensions := VNone;
     statistic := VNone; extended_statistic := VNone; multiplier := 1%float;
     stat_args := [] |}.

(** The metric a specification constructs from the start state on a window
    of one day ([no_metric] when its construction fails). *)
Definition metric (m : value) : SingleMetric :=
  match SingleMetric_init demo_builtins demo_services (VInt 1) m start with
  | (Ok x, _) => x
  | (Raise _, _) => no_metric
  end.

(** The SLI an entry constructs from the start state, and the state after
    its construction (an SLI without metrics when its construction
    fails). *)
Definition built (sli_config : value) : SLI * state Z :=
  match SLI_init demo_builtins demo_services demo_globals sli_config start with
  | (Ok sli, s) => (sli, s)
  | (Raise _, s) =>
      ({| numerator := {| metrics := [] |}; denominator := {| metrics := [] |} |}, s)
  end.

(** The SLIs a configuration parses to from the start state, and the state
    after parsing (no SLI when parsing raises). *)
Definition parsed (sli_configs : value) : list (string * SLI) * state Z :=
  match parse_sli_json demo_builtins demo_services demo_globals
                       (json_text sli_configs) start with
  | (Ok slis, s) => (slis, s)
  | (Raise _, s) => ([], s)
  end.

Definition gets (evs : list event) : nat := List.length (filter is_get evs).

(** An entry without metrics, whose window is a string. *)
Definition vacuous_items : list (string * value) :=
  entry_items [] [] [("window_days", VStr "soon")].

(** A [boto3.client] that numbers the clients it makes. *)
Definition demo_boto3_client (service : string) (made : nat)
  : (botocore_exception + nat) * nat :=
  (inr made, S made).
End Demo.

(** * Properties

    ** The monad *)

Section MonadFacts.
Context {World : Type}.
Implicit Types s : state World.

Lemma bind_ret_l {A B} (a : A) (k : A -> @M World B) s : bind (ret a) k s = k a s.
Proof. reflexivity. Qed.

Lemma bind_ret_r {A} (m : @M World A) s : bind m ret s = m s.
Proof. unfold bind, ret. destruct (m s) as [[a | e] s1]; reflexivity. Qed.

Lemma bind_assoc {A B C} (m : @M World A) (k : A -> @M World B)
      (h : B -> @M World C) s :
  bind (bind m k) h s = bind m (fun a => bind (k a) h) s.
Proof. unfold bind. destruct (m s) as [[a | e] s1]; reflexivity. Qed.

Lemma bind_Ok_inv {A B} (m : @M World A) (k : A -> @M World B) s b s2 :
  bind m k s = (Ok b, s2) ->
  exists a s1, m s = (Ok a, s1) /\ k a s1 = (Ok b, s2).
Proof.
  unfold bind. destruct (m s) as [[a | e] s1]; intros H.
  - exists a, s1. split; [reflexivity | exact H].
  - discriminate H.
Qed.

Lemma bind_Raise_inv {A B} (m : @M World A) (k : A -> @M World B) s e s2 :
  bind m k s = (Raise e, s2) ->
  m s = (Raise e, s2) \/
  exists a s1, m s = (Ok a, s1) /\ k a s1 = (Raise e, s2).
Proof.
  unfold bind. destruct (m s) as [[a | e'] s1]; intros H.
  - right. exists a, s1. split; [reflexivity | exact H].
  - left. inversion H. reflexivity.
Qed.

Lemma bind_Ok {A B} (m : @M World A) (k : A -> @M World B) s a s1 :
  m s = (Ok a, s1) -> bind m k s = k a s1.
Proof. intros H. unfold bind. rewrite H. reflexivity. Qed.

Lemma bind_Raise {A B} (m : @M World A) (k : A -> @M World B) s e s1 :
  m s = (Raise e, s1) -> bind m k s = (Raise e, s1).
Proof. intros H. unfold bind. rewrite H. reflexivity. Qed.

Lemma lift_inv {A} (o r : outcome A) s s' :
  lift o s = (r, s') -> o = r /\ s' = s.
Proof. unfold lift. intros H. inversion H. auto. Qed.

Lemma raises_only_ret {A} P (a : A) : raises_only (World:=World) P (ret a).
Proof. intros s e s' H. discriminate H. Qed.

Lemma raises_only_lift {A} (P : exn -> Prop) (o : outcome A) :
  (forall e, o = Raise e -> P e) -> raises_only (World:=World) P (lift o).
Proof. intros Ho s e s' H. inversion H. subst. apply Ho. reflexivity. Qed.

Lemma raises_only_bind {A B} P (m : @M World A) (k : A -> @M World B) :
  raises_only P m -> (forall a, raises_only P (k a)) -> raises_only P (bind m k).
Proof.
  intros Hm Hk s e s' H.
  destruct (bind_Raise_inv _ _ _ _ _ H) as [H1 | (a & s1 & _ & H2)].
  - exact (Hm _ _ _ H1).
  - exact (Hk _ _ _ _ H2).
Qed.

Lemma raises_only_foldM {A B} P (f : B -> A -> @M World B) xs :
  (forall acc x, raises_only P (f acc x)) ->
  forall acc, raises_only P (foldM f xs acc).
Proof.
  intros Hf. induction xs as [| x xs IH]; intros acc; simpl.
  - apply raises_only_ret.
  - apply raises_only_bind; [apply Hf | exact IH].
Qed.

Lemma emits_only_ret {A} P (a : A) : emits_only (World:=World) P (ret a).
Proof. intros s. exists []. simpl. rewrite app_nil_r. auto. Qed.

Lemma emits_only_lift {A} P (o : outcome A) :
  emits_only (World:=World) P (lift o).
Proof. intros s. exists []. simpl. rewrite app_nil_r. auto. Qed.

Lemma emits_only_bind {A B} P (m : @M World A) (k : A -> @M World B) :
  emits_only P m -> (forall a, emits_only P (k a)) -> emits_only P (bind m k).
Proof.
  intros Hm Hk s. unfold bind.
  destruct (Hm s) as (ev1 & E1 & F1).
  destruct (m s) as [[a | e] s1]; simpl in *.
  - destruct (Hk a s1) as (ev2 & E2 & F2).
    exists (ev1 ++ ev2). rewrite E2, E1, app_assoc, forallb_app, F1, F2. auto.
  - exists ev1. auto.
Qed.

Lemma emits_only_foldM {A B} P (f : B -> A -> @M World B) xs :
  (forall acc x, emits_only P (f acc x)) ->
  forall acc, emits_only P (foldM f xs acc).
Proof.
  intros Hf. induction xs as [| x xs IH]; intros acc; simpl.
  - apply emits_only_ret.
  - apply emits_only_bind; [apply Hf | exact IH].
Qed.

Lemma emits_only_mapM {A B} P (f : A -> @M World B) xs :
  (forall x, emits_only P (f x)) -> emits_only P (mapM f xs).
Proof.
  intros Hf. induction xs as [| x xs IH]; simpl.
  - apply emits_only_ret.
  - apply emits_only_bind; [apply Hf |].
    intros y. apply emits_only_bind; [exact IH |].
    intros ys. apply emits_only_ret.
Qed.
End MonadFacts.

(** ** Only the division of [get_ratio] divides *)

Lemma subscript_not_zero_division obj key e :
  subscript obj key = Raise e -> not_zero_division e.
Proof.
  unfold subscript, not_zero_division. intros H E. subst e.
  repeat match type of H with
         | context [match ?x with _ => _ end] => destruct x
         end; discriminate H.
Qed.

Lemma float_operand_not_zero_division x e :
  float_operand x = Raise e -> not_zero_division e.
Proof.
  unfold float_operand, float_of_int, not_zero_division. intros H E. subst e.
  repeat match type of H with
         | context [match ?x with _ => _ end] => destruct x
         end; discriminate H.
Qed.

Lemma iterate_not_zero_division v e :
  iterate v = Raise e -> not_zero_division e.
Proof.
  unfold iterate, not_zero_division. intros H E. subst e.
  destruct v; discriminate H.
Qed.

Lemma extract_stat_not_zero_division m dp e :
  extract_stat m dp = Raise e -> not_zero_division e.
Proof.
  unfold extract_stat. intros H.
  destruct (truthy (extended_statistic m)).
  - destruct (subscript dp (VStr "ExtendedStatistics")) eqn:E.
    + eapply subscript_not_zero_division; eassumption.
    + inversion H; subst. eapply subscript_not_zero_division; eassumption.
  - eapply subscript_not_zero_division; eassumption.
Qed.

Section Sums.
Context {World : Type} (svc : Services World).

Lemma cloudwatch_get_raises kwargs :
  raises_only not_zero_division (cloudwatch_get svc kwargs).
Proof.
  intros s e s'. unfold cloudwatch_get.
  destruct (get_metric_statistics svc kwargs (world s)) as [[b | v] w]; intros H.
  - inversion H. destruct b; discriminate.
  - discriminate H.
Qed.

Lemma SingleMetric_sum_raises m :
  raises_only not_zero_division (SingleMetric_sum svc m).
Proof.
  unfold SingleMetric_sum.
  apply raises_only_bind; [apply cloudwatch_get_raises | intros resp].
  apply raises_only_bind;
    [apply raises_only_lift, subscript_not_zero_division | intros dps].
  apply raises_only_bind;
    [apply raises_only_lift, iterate_not_zero_division | intros items].
  apply raises_only_bind; [| intros total; apply raises_only_ret].
  apply raises_only_foldM. intros acc dp.
  apply raises_only_bind;
    [apply raises_only_lift, extract_stat_not_zero_division | intros x].
  apply raises_only_lift. unfold float_add. intros e.
  destruct (float_operand x) eqn:E; [discriminate |].
  intros H. inversion H; subst. eapply float_operand_not_zero_division, E.
Qed.

Lemma CompositeMetric_sum_raises c :
  raises_only not_zero_division (CompositeMetric_sum svc c).
Proof.
  unfold CompositeMetric_sum. apply raises_only_foldM. intros acc m.
  apply raises_only_bind; [apply SingleMetric_sum_raises | intros x].
  apply raises_only_ret.
Qed.

(** C2: [get_ratio] raises [ZeroDivisionError] exactly when both sums are
    obtained and the denominator's sum compares equal to zero; when the
    denominator's sum is not zero it returns the IEEE quotient of the two
    sums, neither rounded further nor clamped. *)
Theorem get_ratio_divides (sli : SLI) (s : state World) :
  (fst (get_ratio svc sli s) = Raise ZeroDivisionError <->
   exists n s1 d s2,
     CompositeMetric_sum svc (numerator sli) s = (Ok n, s1) /\
     CompositeMetric_sum svc (denominator sli) s1 = (Ok d, s2) /\
     PrimFloat.eqb d 0%float = true) /\
  (forall n s1 d s2,
     CompositeMetric_sum svc (numerator sli) s = (Ok n, s1) ->
     CompositeMetric_sum svc (denominator sli) s1 = (Ok d, s2) ->
     PrimFloat.eqb d 0%float = false ->
     get_ratio svc sli s = (Ok (PrimFloat.div n d), s2)).
Proof.
  unfold get_ratio, bind, lift, float_div. split; [split |].
  - destruct (CompositeMetric_sum svc (numerator sli) s) as [[n | e] s1] eqn:En.
    + destruct (CompositeMetric_sum svc (denominator sli) s1) as [[d | e] s2] eqn:Ed.
      * destruct (PrimFloat.eqb d 0%float) eqn:Z; simpl; intros H;
          [| discriminate H].
        exists n, s1, d, s2. auto.
      * simpl. intros H. inversion H; subst.
        exfalso. exact (CompositeMetric_sum_raises _ _ _ _ Ed eq_refl).
    + simpl. intros H. inversion H; subst.
      exfalso. exact (CompositeMetric_sum_raises _ _ _ _ En eq_refl).
  - intros (n & s1 & d & s2 & En & Ed & Z). rewrite En, Ed, Z. reflexivity.
  - intros n s1 d s2 En Ed Z. rewrite En, Ed, Z. reflexivity.
Qed.
End Sums.

(** ** Reading one metric *)

Lemma extract_stat_absent m dp :
  stat_key_absent m dp = true -> exists k, extract_stat m dp = Raise (KeyError k).
Proof.
  unfold stat_key_absent, extract_stat, has_key.
  destruct dp as [| | | | | | | d]; try discriminate.
  destruct (truthy (extended_statistic m)); cbn [subscript].
  - destruct (lookup "ExtendedStatistics" d) as [ext |] eqn:E.
    + destruct ext as [| | | | | | | ext]; try discriminate.
      destruct (extended_statistic m) as [| | | | k | | |]; try discriminate.
      cbn [subscript]. destruct (lookup k ext); [discriminate |].
      intros _. eexists. reflexivity.
    + intros _. eexists. reflexivity.
  - destruct (statistic m) as [| | | | k | | |]; try discriminate.
    destruct (lookup k d); [discriminate |].
    intros _. eexists. reflexivity.
Qed.

Section Fetch.
Context {World : Type} (svc : Services World).

(** The loop of [SingleMetric.sum] over datapoints that all carry the
    statistic. *)
Lemma sum_loop_total m datapoints xs :
  Forall2 (fun dp x => exists v, extract_stat m dp = Ok v /\ float_operand v = Ok x)
          datapoints xs ->
  forall (acc : float) (s : state World),
    foldM (fun total datapoint =>
             x <- lift (extract_stat m datapoint) ;;
             lift (float_add total x))
          datapoints acc s
    = (Ok (fold_left PrimFloat.add xs acc), s).
Proof.
  induction 1 as [| dp x dps xs (v & Hv & Hx) _ IH]; intros acc s.
  - reflexivity.
  - cbn [foldM fold_left]. unfold bind at 1. unfold bind at 1.
    unfold lift at 1 2, float_add. rewrite Hv, Hx. apply IH.
Qed.

(** The same loop over datapoints one of which lacks the statistic. *)
Lemma sum_loop_absent m datapoints :
  existsb (stat_key_absent m) datapoints = true ->
  forall (acc : float) (s : state World),
    exists e,
      foldM (fun total datapoint =>
               x <- lift (extract_stat m datapoint) ;;
               lift (float_add total x))
            datapoints acc s
      = (Raise e, s).
Proof.
  induction datapoints as [| dp dps IH]; intros H acc s.
  - discriminate H.
  - cbn [foldM]. unfold bind at 1. unfold bind at 1. unfold lift at 1 2.
    cbn [existsb] in H.
    destruct (extract_stat m dp) as [v | e] eqn:Hv; [| eexists; reflexivity].
    destruct (float_add acc v) as [t | e]; [| eexists; reflexivity].
    destruct (stat_key_absent m dp) eqn:Ha.
    + destruct (extract_stat_absent _ _ Ha) as (k & Hk). congruence.
    + apply IH. exact H.
Qed.

(** C6: when one of the datapoints CloudWatch returns lacks the requested
    statistic, [sum] raises; the datapoint does not count as zero. *)
Theorem SingleMetric_sum_missing_statistic_raises
        (m : SingleMetric) (s : state World) resp w datapoints :
  get_metric_statistics svc (request m) (world s) = (inr resp, w) ->
  subscript resp (VStr "Datapoints") = Ok (VList datapoints) ->
  existsb (stat_key_absent m) datapoints = true ->
  exists e,
    SingleMetric_sum svc m s
    = (Raise e, {| world := w; events := events s ++ [EvGet (request m)] |}).
Proof.
  intros Hget Hdps Habs. unfold SingleMetric_sum.
  unfold bind at 1. unfold cloudwatch_get. rewrite Hget.
  unfold bind at 1. unfold lift at 1. rewrite Hdps.
  unfold bind at 1. unfold lift at 1. cbn [iterate].
  unfold bind at 1.
  destruct (sum_loop_absent m datapoints Habs 0%float
              {| world := w; events := events s ++ [EvGet (request m)] |})
    as (e & He).
  rewrite He. exists e. reflexivity.
Qed.
End Fetch.

(** ** Construction *)

Lemma bind_kwargs_inv params required m kw :
  bind_kwargs params required m = Ok kw -> m = VDict kw.
Proof.
  unfold bind_kwargs. destruct m; try discriminate.
  destruct (_ && _); [| discriminate].
  intros H. inversion H. reflexivity.
Qed.

Ltac split_run H :=
  repeat match type of H with
         | bind _ _ _ = (Ok _, _) =>
             let a := fresh "a" in
             let s1 := fresh "s" in
             let H1 := fresh "H" in
             apply bind_Ok_inv in H; destruct H as (a & s1 & H1 & H)
         end.

Section Construction.
Context {World : Type} (py : Builtins) (svc : Services World).

Lemma now_inv (s s' : state World) t :
  now svc s = (Ok t, s') -> t = fst (utcnow svc (world s)).
Proof.
  unfold now. destruct (utcnow svc (world s)) as [t' w]. intros H.
  inversion H. reflexivity.
Qed.

(** What a constructed [SingleMetric] holds. *)
Lemma SingleMetric_init_inv window_days spec (s s' : state World) m :
  SingleMetric_init py svc window_days spec s = (Ok m, s') ->
  exists kw,
    spec = VDict kw /\
    let st := kwarg "statistic" VNone kw in
    let ext := kwarg "extended_statistic" VNone kw in
    extended_statistic m = ext /\
    statistic m = (if truthy ext then st else if truthy st then st else VStr "Sum") /\
    exists start stop period,
      stat_args m
      = [("StartTime"%string, VDatetime start);
         ("EndTime"%string, VDatetime stop);
         ("Period"%string, period);
         (if truthy ext then ("ExtendedStatistics"%string, VList [ext])
          else ("Statistics"%string, VList [statistic m]))] /\
      (exists w delta,
         timedelta_days py window_days = Ok delta /\
         start = fst (utcnow svc w) - delta) /\
      (exists h mi,
         py_mul_int window_days 24 = Ok h /\
         py_mul_int h 60 = Ok mi /\
         py_mul_int mi 60 = Ok period).
Proof.
  unfold SingleMetric_init. intros H. split_run H.
  unfold lift in *.
  repeat match goal with
         | E : (_, _) = (Ok _, _) |- _ => inversion E; clear E; subst
         end.
  match goal with E : bind_kwargs _ _ _ = Ok _ |- _ =>
    apply bind_kwargs_inv in E; subst spec end.
  match goal with E : now svc ?s0 = (Ok ?t, ?s1), F : datetime_sub ?t _ = _ |- _ =>
    apply now_inv in E; unfold datetime_sub in F end.
  match goal with F : (if ?c then _ else _) = Ok _ |- _ =>
    destruct c; [inversion F; clear F | discriminate F] end.
  exists a. split; [reflexivity |]. cbn zeta.
  destruct (truthy (kwarg "extended_statistic" VNone a)) eqn:Hext;
    [| destruct (truthy (kwarg "statistic" VNone a)) eqn:Hst];
    inversion H; subst m; cbn [extended_statistic statistic stat_args app];
    (split; [reflexivity |]); (split; [reflexivity |]);
    eexists _, _, _; (split; [reflexivity |]);
    (split; [eexists _, _; split; [eassumption | subst; reflexivity]
            | eexists _, _; repeat split; eassumption]).
Qed.

Lemma now_run (s : state World) :
  now svc s
  = (Ok (fst (utcnow svc (world s))),
     {| world := snd (utcnow svc (world s)); events := events s |}).
Proof. unfold now. destruct (utcnow svc (world s)); reflexivity. Qed.

(** A constructed [SingleMetric], field by field, and the state its
    construction leaves. *)
Lemma SingleMetric_init_run window_days spec (s s' : state World) m :
  SingleMetric_init py svc window_days spec s = (Ok m, s') ->
  let first := utcnow svc (world s) in
  let second := utcnow svc (snd first) in
  exists kw mult delta period,
    spec = VDict kw /\
    py_float py (kwarg "multiplier" (VFloat 1%float) kw) = Ok mult /\
    timedelta_days py window_days = Ok delta /\
    (exists h mi,
       py_mul_int window_days 24 = Ok h /\
       py_mul_int h 60 = Ok mi /\
       py_mul_int mi 60 = Ok period) /\
    s' = {| world := snd second; events := events s |} /\
    namespace m = kwarg "namespace" VNone kw /\
    metric_name m = kwarg "metric_name" VNone kw /\
    dimensions m = kwarg "dimensions" VNone kw /\
    extended_statistic m = kwarg "extended_statistic" VNone kw /\
    statistic m
    = (if supplied "extended_statistic" kw then kwarg "statistic" VNone kw
       else if supplied "statistic" kw then kwarg "statistic" VNone kw
       else VStr "Sum") /\
    multiplier m = mult /\
    stat_args m
    = [("StartTime"%string, VDatetime (fst first - delta));
       ("EndTime"%string, VDatetime (fst second));
       ("Period"%string, period);
       (if supplied "extended_statistic" kw
        then ("ExtendedStatistics"%string, VList [kwarg "extended_statistic" VNone kw])
        else ("Statistics"%string, VList [statistic m]))].
Proof.
  unfold SingleMetric_init. intros H. split_run H.
  repeat match goal with
         | E : lift _ _ = _ |- _ => apply lift_inv in E; destruct E as [E ->]
         end.
  repeat match goal with
         | E : now svc _ = _ |- _ =>
             rewrite now_run in E; inversion E; clear E; subst
         end.
  cbn [world events] in *.
  match goal with E : bind_kwargs _ _ _ = Ok _ |- _ =>
    apply bind_kwargs_inv in E; subst spec end.
  match goal with E : datetime_sub _ _ = Ok _ |- _ =>
    unfold datetime_sub in E;
    match type of E with (if ?c then _ else _) = _ =>
      destruct c; [inversion E; clear E; subst | discriminate E] end end.
  cbn zeta. unfold supplied.
  destruct (truthy (kwarg "extended_statistic" VNone a)) eqn:Hext;
    [| destruct (truthy (kwarg "statistic" VNone a)) eqn:Hst];
    inversion H; subst m s';
    cbn [namespace metric_name dimensions statistic extended_statistic
         multiplier stat_args app];
    eexists _, _, _, _;
    (split; [reflexivity |]); (split; [eassumption |]);
    (split; [eassumption |]);
    (split; [eexists _, _; repeat split; eassumption |]);
    repeat split; rewrite ?Hext, ?Hst; reflexivity.
Qed.

(** A list comprehension over [SingleMetric] runs the constructions one
    after the other. *)
Lemma mapM_cons_inv {A B} (f : A -> @M World B) x xs (s s' : state World) ys :
  mapM f (x :: xs) s = (Ok ys, s') ->
  exists y ys' s1,
    ys = y :: ys' /\ f x s = (Ok y, s1) /\ mapM f xs s1 = (Ok ys', s').
Proof.
  cbn [mapM]. intros H. split_run H. inversion H; subst.
  eexists _, _, _. repeat split; eassumption.
Qed.

End Construction.

Section Reducer.
Context {World : Type} (py : Builtins) (svc : Services World).

Lemma absent_not_supplied k kw : lookup k kw = None -> supplied k kw = false.
Proof. unfold supplied, kwarg. intros H. rewrite H. reflexivity. Qed.

(** C5: a metric constructed with neither [statistic] nor
    [extended_statistic] supplied asks CloudWatch for the [Sum] statistic
    and for no extended statistic, and reads the ["Sum"] value of every
    datapoint. *)
Theorem SingleMetric_defaults_to_Sum window_days spec (s s' : state World) m :
  SingleMetric_init py svc window_days (VDict spec) s = (Ok m, s') ->
  supplied "statistic" spec = false ->
  supplied "extended_statistic" spec = false ->
  lookup "Statistics" (request m) = Some (VList [VStr "Sum"]) /\
  lookup "ExtendedStatistics" (request m) = None /\
  forall datapoint, extract_stat m datapoint = subscript datapoint (VStr "Sum").
Proof.
  unfold supplied. intros H Hst Hext.
  apply SingleMetric_init_inv in H.
  destruct H as (kw & E & Hx & Hs & start & stop & period & Ha & _).
  inversion E; subst kw. rewrite Hext, Hst in Hs. rewrite Hext, Hs in Ha.
  unfold request, extract_stat. rewrite Ha, Hx, Hext, Hs. repeat split.
Qed.

(** C9: a metric constructed with both [statistic] and
    [extended_statistic] supplied asks CloudWatch for the extended
    statistic only, and reads every datapoint through
    ["ExtendedStatistics"] only; the standard statistic plays no part. *)
Theorem extended_statistic_takes_precedence
        window_days spec (s s' : state World) m :
  SingleMetric_init py svc window_days (VDict spec) s = (Ok m, s') ->
  supplied "statistic" spec = true ->
  supplied "extended_statistic" spec = true ->
  let ext := kwarg "extended_statistic" VNone spec in
  lookup "ExtendedStatistics" (request m) = Some (VList [ext]) /\
  lookup "Statistics" (request m) = None /\
  forall datapoint,
    extract_stat m datapoint
    = match subscript datapoint (VStr "ExtendedStatistics") with
      | Ok found => subscript found ext
      | Raise e => Raise e
      end.
Proof.
  unfold supplied. intros H _ Hext.
  apply SingleMetric_init_inv in H.
  destruct H as (kw & E & Hx & _ & start & stop & period & Ha & _).
  inversion E; subst kw. rewrite Hext in Ha.
  unfold request, extract_stat. rewrite Ha, Hx, Hext. repeat split.
Qed.
Lemma extract_stat_configured window_days spec (s s' : state World) m :
  SingleMetric_init py svc window_days (VDict spec) s = (Ok m, s') ->
  forall datapoint, extract_stat m datapoint = configured_value spec datapoint.
Proof.
  intros H datapoint. apply SingleMetric_init_run in H. cbn zeta in H.
  destruct H as (kw & mult & delta & period & E & _ & _ & _ & _ & _ & _ & _
                 & Hx & Hs & _).
  inversion E; subst kw.
  unfold extract_stat, configured_value, configured_statistic.
  rewrite Hx, Hs. unfold supplied.
  destruct (truthy (kwarg "extended_statistic" VNone spec)); [reflexivity |].
  destruct (truthy (kwarg "statistic" VNone spec)); reflexivity.
Qed.

(** C4: for a metric constructed from a specification, when CloudWatch
    answers its query with a list of datapoints that all carry a number
    for the statistic the specification configures, [sum] returns those
    numbers, added up from [0.0] in the order returned, times the
    multiplier the specification gives ([1.0] when it gives none): all
    datapoints are summed, none is averaged away. *)
Theorem SingleMetric_sum_adds_all_datapoints
        window_days spec (s0 s0' s : state World) m resp w datapoints xs :
  SingleMetric_init py svc window_days (VDict spec) s0 = (Ok m, s0') ->
  get_metric_statistics svc (request m) (world s) = (inr resp, w) ->
  subscript resp (VStr "Datapoints") = Ok (VList datapoints) ->
  Forall2 (fun dp x => exists v, configured_value spec dp = Ok v /\
                                 float_operand v = Ok x)
          datapoints xs ->
  exists mult,
    py_float py (kwarg "multiplier" (VFloat 1%float) spec) = Ok mult /\
    SingleMetric_sum svc m s
    = (Ok (PrimFloat.mul (fold_left PrimFloat.add xs 0%float) mult),
       {| world := w; events := events s ++ [EvGet (request m)] |}).
Proof.
  intros Hinit Hget Hdps Hall.
  pose proof (extract_stat_configured _ _ _ _ _ Hinit) as Hread.
  apply SingleMetric_init_run in Hinit. cbn zeta in Hinit.
  destruct Hinit as (kw & mult & delta & period & E & Hmult & _ & _ & _ & _ & _
                     & _ & _ & _ & Hm & _).
  inversion E; subst kw. exists mult. split; [exact Hmult |].
  assert (Hall' : Forall2 (fun dp x => exists v, extract_stat m dp = Ok v /\
                                                 float_operand v = Ok x)
                          datapoints xs).
  { eapply Forall2_impl; [| exact Hall].
    intros dp x (v & Hv & Hx). exists v. rewrite Hread. auto. }
  unfold SingleMetric_sum.
  unfold bind at 1. unfold cloudwatch_get. rewrite Hget.
  unfold bind at 1. unfold lift at 1. rewrite Hdps.
  unfold bind at 1. unfold lift at 1. cbn [iterate].
  unfold bind at 1. rewrite (sum_loop_total m datapoints xs Hall').
  unfold ret. rewrite Hm. reflexivity.
Qed.
End Reducer.

Section Window.
Context {World : Type} (py : Builtins) (svc : Services World).

Lemma mapM_constructed_in_turn days :
  forall specs (s s' : state World) ms,
    mapM (SingleMetric_init py svc (VInt days)) specs s = (Ok ms, s') ->
    constructed_in_turn svc days specs ms (world s) /\
    s' = {| world := after_metrics svc (List.length specs) (world s);
            events := events s |}.
Proof.
  induction specs as [| spec specs IH]; intros s s' ms H.
  - cbn [mapM] in H. inversion H; subst. destruct s'. split; [exact I | reflexivity].
  - apply mapM_cons_inv in H. destruct H as (m & ms' & s1 & -> & Hm & Hrest).
    apply SingleMetric_init_run in Hm. cbn zeta in Hm.
    destruct Hm as (kw & mult & delta & period & -> & _ & Hdelta & Hperiod & ->
                    & Hns & Hname & Hdims & _ & _ & _ & Hargs).
    destruct Hperiod as (h & mi & H1 & H2 & H3).
    cbn [py_mul_int] in H1. inversion H1; subst h.
    cbn [py_mul_int] in H2. inversion H2; subst mi.
    cbn [py_mul_int] in H3. inversion H3; subst period.
    cbn [timedelta_days] in Hdelta.
    destruct (Z.abs days <=? 999999999); [| discriminate Hdelta].
    inversion Hdelta; subst delta.
    apply IH in Hrest. cbn [world events] in Hrest. destruct Hrest as [Hrest ->].
    cbn [constructed_in_turn after_metrics List.length]. unfold request.
    rewrite Hns, Hname, Hdims, Hargs.
    split; [| reflexivity].
    split; [exists kw; repeat split |].
    repeat split. exact Hrest.
Qed.

Lemma CompositeMetric_init_in_turn days v (s s' : state World) c :
  CompositeMetric_init py svc (VInt days) v s = (Ok c, s') ->
  exists specs,
    iterate v = Ok specs /\
    constructed_in_turn svc days specs (metrics c) (world s) /\
    s' = {| world := after_metrics svc (List.length specs) (world s);
            events := events s |}.
Proof.
  unfold CompositeMetric_init. intros H. split_run H.
  apply lift_inv in H0. destruct H0 as [Hit ->].
  inversion H; subst c s'. cbn [metrics].
  exists a. split; [exact Hit |]. apply mapM_constructed_in_turn. exact H1.
Qed.

(** An SLI constructed over a window of [days] days, whether the entry
    names the window or leaves it to [WINDOW_DAYS]. *)
Lemma SLI_init_in_turn (g : globals) cfg days (s s' : state World) sli :
  SLI_init py svc g (VDict cfg) s = (Ok sli, s') ->
  match kwarg "window_days" (VInt (WINDOW_DAYS g)) cfg with
  | VNone => VInt (WINDOW_DAYS g)
  | v => v
  end = VInt days ->
  exists nums dens,
    iterate (kwarg "numerator" VNone cfg) = Ok nums /\
    iterate (kwarg "denominator" VNone cfg) = Ok dens /\
    constructed_in_turn svc days nums (metrics (numerator sli)) (world s) /\
    constructed_in_turn svc days dens (metrics (denominator sli))
                        (after_metrics svc (List.length nums) (world s)) /\
    s' = {| world := after_metrics svc (List.length dens)
                       (after_metrics svc (List.length nums) (world s));
            events := events s |}.
Proof.
  unfold SLI_init. intros H Hwd. split_run H.
  apply lift_inv in H0. destruct H0 as [Hkw ->].
  apply bind_kwargs_inv in Hkw. inversion Hkw; subst a.
  rewrite Hwd in H1, H2.
  apply CompositeMetric_init_in_turn in H1.
  destruct H1 as (nums & Hnums & Hn & ->).
  apply CompositeMetric_init_in_turn in H2. cbn [world events] in H2.
  destruct H2 as (dens & Hdens & Hd & ->).
  inversion H; subst sli s'. cbn [numerator denominator].
  exists nums, dens. repeat split; assumption.
Qed.

(** C8: an entry without [window_days] that constructs an SLI constructs
    it over the module's [WINDOW_DAYS]: the metrics of the numerator are
    those of the entry's [numerator] list and the metrics of the
    denominator those of its [denominator] list, one for one and in
    order, and the query of every one of them has a period of
    [WINDOW_DAYS] days and starts [WINDOW_DAYS] days before the reading of
    the clock its construction began with. *)
Theorem SLI_without_window_days_spans_default
        (g : globals) cfg (s s' : state World) sli :
  SLI_init py svc g (VDict cfg) s = (Ok sli, s') ->
  lookup "window_days" cfg = None ->
  exists nums dens,
    iterate (kwarg "numerator" VNone cfg) = Ok nums /\
    iterate (kwarg "denominator" VNone cfg) = Ok dens /\
    constructed_in_turn svc (WINDOW_DAYS g) nums
                        (metrics (numerator sli)) (world s) /\
    constructed_in_turn svc (WINDOW_DAYS g) dens
                        (metrics (denominator sli))
                        (after_metrics svc (List.length nums) (world s)) /\
    s' = {| world := after_metrics svc (List.length dens)
                       (after_metrics svc (List.length nums) (world s));
            events := events s |}.
Proof.
  intros H Hwd. eapply SLI_init_in_turn; [exact H |].
  unfold kwarg. rewrite Hwd. reflexivity.
Qed.
End Window.

(** ** Process configuration *)

Section Preconditions.
Context {World : Type} (py : Builtins) (svc : Services World).

(** C7: when [SLI_NAMESPACE], [SLI_PREFIX], [SLIS] or [WINDOW_DAYS] is
    missing from the environment, or [WINDOW_DAYS] is not an integer, the
    invocation raises and leaves the state as it found it: the clock was
    not read, nothing was parsed, CloudWatch was neither queried nor
    written, nothing was printed. *)
Theorem missing_configuration_is_fatal
        (environ : list (string * string)) (s : state World) :
  lookup "SLI_NAMESPACE" environ = None \/
  lookup "SLI_PREFIX" environ = None \/
  lookup "SLIS" environ = None \/
  lookup "WINDOW_DAYS" environ = None \/
  (exists t, lookup "WINDOW_DAYS" environ = Some t /\ int_of_str py t = None) ->
  exists e, invocation py svc environ s = (Raise e, s).
Proof.
  intros H. unfold invocation, main, lambda_handler, module_globals.
  unfold bind at 1. unfold lift.
  destruct (lookup "WINDOW_DAYS" environ) as [t |] eqn:Hw;
    [| eexists; reflexivity].
  destruct (int_of_str py t) as [days |] eqn:Hi; [| eexists; reflexivity].
  cbn [SLI_NAMESPACE SLI_PREFIX SLIS].
  destruct (lookup "SLI_NAMESPACE" environ) as [ns |] eqn:Hn;
    [| eexists; reflexivity].
  destruct (lookup "SLI_PREFIX" environ) as [prefix |] eqn:Hp;
    [| eexists; reflexivity].
  destruct (lookup "SLIS" environ) as [slis |] eqn:Hs;
    [| eexists; reflexivity].
  exfalso.
  destruct H as [H | [H | [H | [H | (t' & H & Hi')]]]]; try discriminate H.
  inversion H; subst t'. congruence.
Qed.
End Preconditions.

(** ** Empty composites *)

Section Empty.
Context {World : Type} (py : Builtins) (svc : Services World).

Lemma get_ratio_empty_denominator sli (s : state World) :
  metrics (denominator sli) = [] ->
  get_ratio svc sli s
  = match CompositeMetric_sum svc (numerator sli) s with
    | (Ok _, s1) => (Raise ZeroDivisionError, s1)
    | (Raise e, s1) => (Raise e, s1)
    end.
Proof.
  intros Hd. unfold get_ratio. unfold bind at 1.
  destruct (CompositeMetric_sum svc (numerator sli) s) as [[n | e] s1];
    [| reflexivity].
  unfold bind, CompositeMetric_sum. rewrite Hd. reflexivity.
Qed.

(** C10, as the code has it: a [CompositeMetric] constructed from an empty
    list of metric specifications is constructed without reading the clock,
    and its [sum] returns [0.0] without a call to CloudWatch; an SLI
    constructed with an empty denominator list never returns a ratio:
    [get_ratio] raises [ZeroDivisionError] when the numerator's sum is
    obtained, and what the numerator's sum raises otherwise. *)
Theorem empty_composite_is_zero :
  (forall window_days (s s' : state World) c,
     CompositeMetric_init py svc window_days (VList []) s = (Ok c, s') ->
     s' = s /\
     forall t : state World, CompositeMetric_sum svc c t = (Ok 0%float, t)) /\
  (forall g cfg (s s' : state World) sli,
     SLI_init py svc g (VDict cfg) s = (Ok sli, s') ->
     lookup "denominator" cfg = Some (VList []) ->
     forall t : state World,
       get_ratio svc sli t
       = match CompositeMetric_sum svc (numerator sli) t with
         | (Ok _, t1) => (Raise ZeroDivisionError, t1)
         | (Raise e, t1) => (Raise e, t1)
         end).
Proof.
  split.
  - intros window_days s s' c H. cbn in H. inversion H. split; reflexivity.
  - intros g cfg s s' sli H Hden t.
    apply get_ratio_empty_denominator.
    unfold SLI_init in H. split_run H.
    apply lift_inv in H0. destruct H0 as [Hkw ->].
    apply bind_kwargs_inv in Hkw. inversion Hkw; subst a.
    unfold kwarg in H2. rewrite Hden in H2. cbn in H2.
    inversion H2; subst. inversion H; subst. reflexivity.
Qed.
End Empty.

(** ** Parsing the configuration *)

Section DictFacts.
Context {V : Type}.

Lemma dict_set_fresh k (v : V) d :
  ~ In k (map fst d) -> dict_set k v d = d ++ [(k, v)].
Proof.
  induction d as [| [k' v'] d IH]; intros H; cbn [dict_set app].
  - reflexivity.
  - cbn [map fst In] in H.
    destruct (String.eqb_spec k k') as [-> | _].
    + exfalso. apply H. left. reflexivity.
    + rewrite IH; [reflexivity |]. intros Hin. apply H. right. exact Hin.
Qed.

Lemma fold_dict_set_fresh (l acc : list (string * V)) :
  NoDup (map fst (acc ++ l)) ->
  fold_left (fun d kv => dict_set (fst kv) (snd kv) d) l acc = acc ++ l.
Proof.
  revert acc. induction l as [| [k v] l IH]; intros acc H; cbn [fold_left].
  - rewrite app_nil_r. reflexivity.
  - cbn [fst snd].
    assert (Hk : ~ In k (map fst acc)).
    { rewrite map_app in H. cbn [map fst] in H.
      apply NoDup_remove_2 in H. intros Hin. apply H.
      apply in_or_app. left. exact Hin. }
    rewrite (dict_set_fresh _ _ _ Hk), IH.
    + rewrite <- app_assoc. reflexivity.
    + rewrite <- app_assoc. exact H.
Qed.
End DictFacts.

Section Parsing.
Context {World : Type} (py : Builtins) (svc : Services World).

Lemma emits_nothing {A} (m : @M World A) :
  emits_only no_event m -> forall s, events (snd (m s)) = events s.
Proof.
  intros H s. destruct (H s) as (evs & E & F).
  destruct evs as [| ev evs]; [| discriminate F].
  rewrite E, app_nil_r. reflexivity.
Qed.

Lemma now_quiet P : emits_only P (now svc).
Proof.
  intros s. exists []. unfold now.
  destruct (utcnow svc (world s)) as [t w]. cbn. rewrite app_nil_r. auto.
Qed.

Lemma SingleMetric_init_quiet P window_days spec :
  emits_only P (SingleMetric_init py svc window_days spec).
Proof.
  unfold SingleMetric_init.
  repeat first
    [ apply emits_only_lift
    | apply now_quiet
    | apply emits_only_ret
    | apply emits_only_bind; [| intro]
    | match goal with |- emits_only _ (if ?c then _ else _) => destruct c end ].
Qed.

Lemma SLI_init_quiet P g cfg : emits_only P (SLI_init py svc g cfg).
Proof.
  unfold SLI_init, CompositeMetric_init.
  repeat first
    [ apply emits_only_lift
    | apply emits_only_ret
    | apply emits_only_mapM; intro; apply SingleMetric_init_quiet
    | apply emits_only_bind; [| intro] ].
Qed.

Lemma parse_attempts_names g items (s : state World) :
  map fst (fst (parse_attempts py svc g items s)) = map fst items.
Proof.
  revert s. induction items as [| item items IH]; intros s; cbn [parse_attempts].
  - reflexivity.
  - destruct (parse_attempt py svc g item s) as [r s1].
    specialize (IH s1).
    destruct (parse_attempts py svc g items s1) as [rs s2].
    cbn [fst map] in *. rewrite IH. reflexivity.
Qed.

Lemma constructed_names rs k :
  In k (map fst (constructed rs)) -> In k (map fst rs).
Proof.
  induction rs as [| [name [sli | e]] rs IH]; cbn [constructed map fst In].
  - auto.
  - intros [H | H]; auto.
  - auto.
Qed.

Lemma constructed_NoDup rs :
  NoDup (map fst rs) -> NoDup (map fst (constructed rs)).
Proof.
  induction rs as [| [name [sli | e]] rs IH]; cbn [constructed map fst];
    intros H.
  - constructor.
  - inversion H; subst. constructor; auto.
    intros Hin. apply constructed_names in Hin. contradiction.
  - inversion H; auto.
Qed.

(** One iteration of the loop against the attempt it makes. *)
Lemma parse_sli_attempt g acc item (s : state World) :
  parse_survivable (fst item, fst (parse_attempt py svc g item s)) = true ->
  parse_sli py svc g acc item s
  = (Ok match fst (parse_attempt py svc g item s) with
        | Ok sli => dict_set (fst item) sli acc
        | Raise _ => acc
        end,
     snd (parse_attempt py svc g item s)).
Proof.
  destruct item as [name cfg].
  unfold parse_survivable, parse_sli, parse_attempt, try_except, parse_handlers.
  cbn [fst snd]. unfold bind at 1.
  destruct (SLI_init py svc g cfg s) as [[sli | e] s1]; cbn [fst snd].
  - reflexivity.
  - intros H. rewrite H. reflexivity.
Qed.

Lemma parse_attempt_events g item (s : state World) :
  parse_survivable (fst item, fst (parse_attempt py svc g item s)) = true ->
  events (snd (parse_attempt py svc g item s))
  = events s
    ++ map EvPrint (skipped_lines py [(fst item, fst (parse_attempt py svc g item s))]).
Proof.
  unfold parse_survivable, parse_attempt.
  pose proof (emits_nothing _ (SLI_init_quiet no_event g (snd item)) s) as Hq.
  destruct (SLI_init py svc g (snd item) s) as [[sli | e] s1];
    cbn [fst snd skipped_lines map] in *.
  - rewrite app_nil_r. intros _. exact Hq.
  - intros H. rewrite H. cbn. rewrite Hq. reflexivity.
Qed.

Lemma parse_loop g items :
  forall acc (s : state World),
    forallb parse_survivable (fst (parse_attempts py svc g items s)) = true ->
    foldM (parse_sli py svc g) items acc s
    = (Ok (fold_left (fun d kv => dict_set (fst kv) (snd kv) d)
                     (constructed (fst (parse_attempts py svc g items s))) acc),
       snd (parse_attempts py svc g items s))
    /\ events (snd (parse_attempts py svc g items s))
       = events s
         ++ map EvPrint (skipped_lines py (fst (parse_attempts py svc g items s))).
Proof.
  induction items as [| item items IH]; intros acc s; cbn [parse_attempts foldM].
  - intros _. cbn. rewrite app_nil_r. auto.
  - pose proof (parse_sli_attempt g acc item s) as Hone.
    pose proof (parse_attempt_events g item s) as Hev.
    destruct (parse_attempt py svc g item s) as [r s1]. cbn [fst snd] in *.
    pose proof (fun acc' => IH acc' s1) as IH'.
    destruct (parse_attempts py svc g items s1) as [rs s2].
    cbn [fst snd forallb] in *.
    intros H. apply andb_prop in H. destruct H as [Hr Hrs].
    specialize (Hone Hr). specialize (Hev Hr).
    unfold bind. rewrite Hone.
    destruct r as [sli | e]; cbn [constructed skipped_lines fold_left fst snd map] in *.
    + destruct (IH' (dict_set (fst item) sli acc) Hrs) as [-> ->].
      rewrite Hev, app_nil_r. auto.
    + destruct (IH' acc Hrs) as [-> ->].
      rewrite Hev, <- app_assoc. auto.
Qed.

(** C3, as the code has it: when the text loads as a mapping and every
    entry's construction either returns or raises [KeyError], [TypeError]
    or [ValueError], [parse_sli_json] returns, without raising, exactly the
    entries whose construction returned, in the order of the input, and
    prints one line for each entry whose construction raised.  Whether an
    entry is kept is decided by its construction alone: no value is
    validated. *)
Theorem parse_sli_json_keeps_what_constructs
        (g : globals) sli_json items (s : state World) :
  json_loads py sli_json = Some (VDict items) ->
  NoDup (map fst items) ->
  forallb parse_survivable (fst (parse_attempts py svc g items s)) = true ->
  parse_sli_json py svc g sli_json s
  = (Ok (constructed (fst (parse_attempts py svc g items s))),
     snd (parse_attempts py svc g items s))
  /\ map fst (fst (parse_attempts py svc g items s)) = map fst items
  /\ events (snd (parse_attempts py svc g items s))
     = events s
       ++ map EvPrint (skipped_lines py (fst (parse_attempts py svc g items s))).
Proof.
  intros Hjson Hnd Hall.
  destruct (parse_loop g items [] s Hall) as [Hrun Hev].
  split; [| split; [apply parse_attempts_names | exact Hev]].
  unfold parse_sli_json, parse_sli_configs.
  unfold bind at 1. unfold lift at 1. rewrite Hjson.
  unfold bind at 1. unfold lift at 1. cbn [dict_items].
  rewrite Hrun, fold_dict_set_fresh; [reflexivity |].
  cbn [app]. apply constructed_NoDup.
  rewrite parse_attempts_names. exact Hnd.
Qed.
End Parsing.

(** ** Publishing *)

Lemma puts_app evs1 evs2 : puts (evs1 ++ evs2) = puts evs1 ++ puts evs2.
Proof. unfold puts. apply flat_map_app. Qed.

Lemma puts_of_gets evs : forallb is_get evs = true -> puts evs = [].
Proof.
  induction evs as [| ev evs IH]; cbn [forallb]; intros H.
  - reflexivity.
  - apply andb_prop in H. destruct H as [Hev Hevs].
    destruct ev; try discriminate Hev. cbn. apply IH, Hevs.
Qed.

Section Publishing.
Context {World : Type} (py : Builtins) (svc : Services World).

Lemma cloudwatch_get_emits kwargs : emits_only is_get (cloudwatch_get svc kwargs).
Proof.
  intros s. exists [EvGet kwargs]. unfold cloudwatch_get.
  destruct (get_metric_statistics svc kwargs (world s)) as [[b | v] w]; auto.
Qed.

Lemma get_ratio_emits sli : emits_only is_get (get_ratio svc sli).
Proof.
  unfold get_ratio, CompositeMetric_sum, SingleMetric_sum.
  repeat first
    [ apply emits_only_lift
    | apply emits_only_ret
    | apply cloudwatch_get_emits
    | apply emits_only_foldM; intros
    | apply emits_only_bind; [| intro] ].
Qed.

Lemma get_ratio_puts sli (s : state World) :
  puts (events (snd (get_ratio svc sli s))) = puts (events s).
Proof.
  destruct (get_ratio_emits sli s) as (evs & E & F).
  rewrite E, puts_app, (puts_of_gets _ F), app_nil_r. reflexivity.
Qed.

(** One iteration of the loop against the attempt it makes. *)
Lemma publish_sli_attempt sli_namespace sli_prefix item (s : state World) :
  survivable (fst item, fst (publish_attempt py svc sli_namespace sli_prefix item s))
  = true ->
  publish_sli py svc sli_namespace sli_prefix item s
  = (Ok tt, snd (publish_attempt py svc sli_namespace sli_prefix item s))
  /\ puts (events (snd (publish_attempt py svc sli_namespace sli_prefix item s)))
     = puts (events s)
       ++ expected_puts sli_namespace sli_prefix
            [(fst item, fst (publish_attempt py svc sli_namespace sli_prefix item s))].
Proof.
  destruct item as [name sli].
  unfold survivable, publish_sli, publish_attempt, try_except.
  cbn [fst snd]. unfold bind.
  pose proof (get_ratio_puts sli s) as Hputs.
  destruct (get_ratio svc sli s) as [[v | e] s1]; cbn [fst snd] in *.
  - unfold ret, print, emit, cloudwatch_put. cbn [world events].
    destruct (put_metric_data svc (metric_data_kwargs sli_namespace sli_prefix name v)
                              (world s1)) as [[b | r] w];
      cbn [fst snd]; intros H; [discriminate H |].
    split; [reflexivity |].
    cbn [events expected_puts]. rewrite !puts_app, Hputs. cbn.
    rewrite app_nil_r. reflexivity.
  - intros H.
    destruct e; try discriminate H; cbn [publish_handlers];
      unfold bind, print, emit, ret; cbn [fst snd events expected_puts];
      (split; [reflexivity |]);
      rewrite puts_app, Hputs; reflexivity.
Qed.

(** A failure of [get_ratio] that [publish_slis] catches costs one printed
    line, and the loop goes on with the SLIs that follow. *)
Lemma publish_slis_skips_caught_failure
      sli_name sli rest sli_namespace sli_prefix (s s1 : state World) e :
  get_ratio svc sli s = (Raise e, s1) ->
  publish_catches e = true ->
  exists line,
    publish_slis py svc ((sli_name, sli) :: rest) sli_namespace sli_prefix s
    = publish_slis py svc rest sli_namespace sli_prefix
        {| world := world s1; events := events s1 ++ [EvPrint line] |}.
Proof.
  intros Hr He. unfold publish_slis, for_each. cbn [foldM].
  unfold bind at 1. unfold publish_sli, try_except. unfold bind at 1 2.
  rewrite Hr.
  destruct e; try discriminate He; cbn [publish_handlers];
    eexists; reflexivity.
Qed.

(** Any other failure of [get_ratio] leaves [publish_slis] at once. *)
Lemma publish_slis_propagates_other_failure
      sli_name sli rest sli_namespace sli_prefix (s s1 : state World) e :
  get_ratio svc sli s = (Raise e, s1) ->
  publish_catches e = false ->
  publish_slis py svc ((sli_name, sli) :: rest) sli_namespace sli_prefix s
  = (Raise e, s1).
Proof.
  intros Hr He. unfold publish_slis, for_each. cbn [foldM].
  unfold bind at 1. unfold publish_sli, try_except. unfold bind at 1 2.
  rewrite Hr.
  destruct e; try discriminate He; reflexivity.
Qed.

Lemma publish_attempts_length sli_namespace sli_prefix slis (s : state World) :
  map fst (fst (publish_attempts py svc sli_namespace sli_prefix slis s))
  = map fst slis.
Proof.
  revert s. induction slis as [| item slis IH]; intros s; cbn [publish_attempts].
  - reflexivity.
  - destruct (publish_attempt py svc sli_namespace sli_prefix item s) as [r s1].
    specialize (IH s1).
    destruct (publish_attempts py svc sli_namespace sli_prefix slis s1) as [rs s2].
    cbn [fst map] in *. rewrite IH. reflexivity.
Qed.

Lemma expected_puts_cons sli_namespace sli_prefix r rs :
  expected_puts sli_namespace sli_prefix (r :: rs)
  = expected_puts sli_namespace sli_prefix [r]
    ++ expected_puts sli_namespace sli_prefix rs.
Proof. destruct r as [name [[v | e] w]]; reflexivity. Qed.

(** The loop over attempts that all survive. *)
Lemma publish_slis_runs_all_attempts
      slis sli_namespace sli_prefix (s : state World) :
  forallb survivable
          (fst (publish_attempts py svc sli_namespace sli_prefix slis s)) = true ->
  publish_slis py svc slis sli_namespace sli_prefix s
  = (Ok tt, snd (publish_attempts py svc sli_namespace sli_prefix slis s))
  /\ puts (events (snd (publish_attempts py svc sli_namespace sli_prefix slis s)))
     = puts (events s)
       ++ expected_puts sli_namespace sli_prefix
            (fst (publish_attempts py svc sli_namespace sli_prefix slis s)).
Proof.
  intros H.
  split; revert s H; unfold publish_slis, for_each;
    induction slis as [| item slis IH]; intros s;
    cbn [publish_attempts foldM].
  - reflexivity.
  - pose proof (publish_sli_attempt sli_namespace sli_prefix item s) as Hone.
    destruct (publish_attempt py svc sli_namespace sli_prefix item s) as [r s1].
    specialize (IH s1).
    destruct (publish_attempts py svc sli_namespace sli_prefix slis s1) as [rs s2].
    cbn [fst snd forallb] in *. intros H.
    apply andb_prop in H. destruct H as [Hr Hrs].
    destruct (Hone Hr) as [Hrun _]. unfold bind. rewrite Hrun. apply IH, Hrs.
  - intros _. cbn. rewrite app_nil_r. reflexivity.
  - pose proof (publish_sli_attempt sli_namespace sli_prefix item s) as Hone.
    destruct (publish_attempt py svc sli_namespace sli_prefix item s) as [r s1].
    specialize (IH s1).
    destruct (publish_attempts py svc sli_namespace sli_prefix slis s1) as [rs s2].
    cbn [fst snd forallb] in *. intros H.
    apply andb_prop in H. destruct H as [Hr Hrs].
    destruct (Hone Hr) as [_ Hputs].
    rewrite (expected_puts_cons _ _ (fst item, r) rs), app_assoc, <- Hputs.
    apply IH, Hrs.
Qed.

(** C1, as the code has it: a [ZeroDivisionError], [ClientError] or
    [BotoCoreError] raised while an SLI's ratio is computed does not end
    the batch: [publish_slis] prints a line and goes on with the SLIs that
    follow, as if it had been called on them.  And when every SLI of the
    mapping either fails in this way, or has its ratio written without
    error, [publish_slis] returns without raising, having attempted every
    SLI in order, and the writes it made are exactly those of the SLIs
    whose ratio was obtained. *)
Theorem publish_slis_isolates_caught_failures sli_namespace sli_prefix :
  (forall sli_name sli rest (s s1 : state World) e,
     get_ratio svc sli s = (Raise e, s1) ->
     publish_catches e = true ->
     exists line,
       publish_slis py svc ((sli_name, sli) :: rest) sli_namespace sli_prefix s
       = publish_slis py svc rest sli_namespace sli_prefix
           {| world := world s1; events := events s1 ++ [EvPrint line] |}) /\
  (forall slis (s : state World),
     forallb survivable
             (fst (publish_attempts py svc sli_namespace sli_prefix slis s)) = true ->
     publish_slis py svc slis sli_namespace sli_prefix s
     = (Ok tt, snd (publish_attempts py svc sli_namespace sli_prefix slis s))
     /\ map fst (fst (publish_attempts py svc sli_namespace sli_prefix slis s))
        = map fst slis
     /\ puts (events (snd (publish_attempts py svc sli_namespace sli_prefix slis s)))
        = puts (events s)
          ++ expected_puts sli_namespace sli_prefix
               (fst (publish_attempts py svc sli_namespace sli_prefix slis s))).
Proof.
  split.
  - intros sli_name sli rest s s1 e.
    apply publish_slis_skips_caught_failure.
  - intros slis s H.
    destruct (publish_slis_runs_all_attempts slis sli_namespace sli_prefix s H)
      as [Hrun Hputs].
    split; [exact Hrun |].
    split; [apply publish_attempts_length | exact Hputs].
Qed.
End Publishing.

(** * Further properties

    ** Queries *)

Section Queries.
Context {World : Type} (svc : Services World).

Lemma foldM_app {A B} (f : B -> A -> @M World B) l1 l2 acc s :
  foldM f (l1 ++ l2) acc s = bind (foldM f l1 acc) (foldM f l2) s.
Proof.
  revert acc s. induction l1 as [| x l1 IH]; intros acc s; cbn [foldM app].
  - reflexivity.
  - unfold bind. destruct (f acc x s) as [[b | e] s1]; [| reflexivity].
    specialize (IH b s1). unfold bind in IH. exact IH.
Qed.

Lemma sum_loop_keeps_state m datapoints :
  forall (acc : float) (s : state World),
    snd (foldM (fun total datapoint =>
                  x <- lift (extract_stat m datapoint) ;;
                  lift (float_add total x))
               datapoints acc s) = s.
Proof.
  induction datapoints as [| dp dps IH]; intros acc s; cbn [foldM].
  - reflexivity.
  - unfold bind at 1. unfold bind at 1. unfold lift at 1 2.
    destruct (extract_stat m dp) as [v | e]; [| reflexivity].
    destruct (float_add acc v) as [t | e]; [| reflexivity].
    apply IH.
Qed.

(** What [SingleMetric.sum] does to the state: one query, nothing else. *)
Lemma SingleMetric_sum_state m (s : state World) :
  snd (SingleMetric_sum svc m s)
  = {| world := snd (get_metric_statistics svc (request m) (world s));
       events := events s ++ [EvGet (request m)] |}.
Proof.
  unfold SingleMetric_sum. unfold bind at 1. unfold cloudwatch_get.
  destruct (get_metric_statistics svc (request m) (world s)) as [[b | resp] w];
    cbn [snd]; [reflexivity |].
  unfold bind at 1. unfold lift at 1.
  destruct (subscript resp (VStr "Datapoints")) as [dps | e]; [| reflexivity].
  unfold bind at 1. unfold lift at 1.
  destruct (iterate dps) as [items | e]; [| reflexivity].
  unfold bind at 1.
  pose proof (sum_loop_keeps_state m items 0%float
                {| world := w; events := events s ++ [EvGet (request m)] |}) as H.
  destruct (foldM _ items 0%float _) as [[t | e] s1]; cbn [snd] in *;
    rewrite H; reflexivity.
Qed.

(** X1: a fetch evaluates
    [Cloudwatch.client().get_metric_statistics(...)] exactly once, with
    the metric's own keyword arguments: at most one call reaches
    CloudWatch (none when the client cannot be created), and when that
    statement raises a botocore exception, the fetch raises that very
    exception: nothing is retried. *)
Theorem SingleMetric_sum_attempts_query_once m (s : state World) :
  events (snd (SingleMetric_sum svc m s)) = events s ++ [EvGet (request m)] /\
  world (snd (SingleMetric_sum svc m s))
  = snd (get_metric_statistics svc (request m) (world s)) /\
  forall b,
    fst (get_metric_statistics svc (request m) (world s)) = inl b ->
    fst (SingleMetric_sum svc m s) = Raise (exn_of_botocore b).
Proof.
  rewrite SingleMetric_sum_state. cbn [events world]. repeat split.
  intros b Hb. unfold SingleMetric_sum. unfold bind at 1. unfold cloudwatch_get.
  destruct (get_metric_statistics svc (request m) (world s)) as [[b' | resp] w];
    cbn [fst] in *; [| discriminate Hb].
  inversion Hb. reflexivity.
Qed.

(** X2: a composite adds the sum of one more metric to the sum of the
    metrics before it, querying them in that order. *)
Theorem CompositeMetric_sum_snoc before m (s s1 s2 : state World) acc x :
  CompositeMetric_sum svc {| metrics := before |} s = (Ok acc, s1) ->
  SingleMetric_sum svc m s1 = (Ok x, s2) ->
  CompositeMetric_sum svc {| metrics := before ++ [m] |} s
  = (Ok (PrimFloat.add acc x), s2).
Proof.
  unfold CompositeMetric_sum. cbn [metrics]. intros Hb Hm.
  rewrite foldM_app. unfold bind at 1. rewrite Hb.
  cbn [foldM]. unfold bind at 1. unfold bind at 1. rewrite Hm. reflexivity.
Qed.

(** X3: a composite whose constituent fails raises what the constituent
    raised, in the state the constituent left: there is no partial sum,
    and the metrics after it are not queried. *)
Theorem CompositeMetric_sum_aborts before m after (s s1 s2 : state World) acc e :
  CompositeMetric_sum svc {| metrics := before |} s = (Ok acc, s1) ->
  SingleMetric_sum svc m s1 = (Raise e, s2) ->
  CompositeMetric_sum svc {| metrics := before ++ m :: after |} s = (Raise e, s2).
Proof.
  unfold CompositeMetric_sum. cbn [metrics]. intros Hb Hm.
  rewrite foldM_app. unfold bind at 1. rewrite Hb.
  cbn [foldM]. unfold bind at 1. unfold bind at 1. rewrite Hm. reflexivity.
Qed.




End Queries.

(** ** More on construction *)

Section Lookups.
Context {V : Type}.

Lemma lookup_insert_other k k' (v : V) pre post :
  String.eqb k k' = false ->
  lookup k (pre ++ (k', v) :: post) = lookup k (pre ++ post).
Proof.
  intros Hk. induction pre as [| [k0 v0] pre IH]; cbn [app lookup].
  - rewrite Hk. reflexivity.
  - destruct (String.eqb k k0); [reflexivity | exact IH].
Qed.

Lemma lookup_insert_same k (v : V) pre post :
  lookup k (pre ++ post) = None ->
  lookup k (pre ++ (k, v) :: post) = Some v.
Proof.
  induction pre as [| [k0 v0] pre IH]; cbn [app lookup].
  - rewrite String.eqb_refl. reflexivity.
  - destruct (String.eqb k k0); [discriminate | exact IH].
Qed.

Lemma has_key_insert_other k k' (v : V) pre post :
  String.eqb k k' = false ->
  has_key k (pre ++ (k', v) :: post) = has_key k (pre ++ post).
Proof. intros Hk. unfold has_key. rewrite lookup_insert_other; auto. Qed.
End Lookups.

Lemma forallb_insert {A} (f : A -> bool) x pre post :
  forallb f (pre ++ x :: post) = f x && forallb f (pre ++ post).
Proof.
  rewrite !forallb_app. cbn [forallb].
  destruct (forallb f pre), (f x), (forallb f post); reflexivity.
Qed.

Section MoreConstruction.
Context {World : Type} (py : Builtins) (svc : Services World).

(** X5: the query of every constructed metric has the six keys every
    query has and then exactly one of [Statistics] and
    [ExtendedStatistics], which names one statistic, never a false value;
    and the statistic the query names is the one [extract_stat] reads from
    a datapoint: under ["ExtendedStatistics"] when the query asks for an
    extended statistic, on the datapoint itself when it asks for a
    standard one. *)
Theorem SingleMetric_request_shape window_days spec (s s' : state World) m :
  SingleMetric_init py svc window_days spec s = (Ok m, s') ->
  exists key name,
    map fst (request m)
    = ["Namespace"; "MetricName"; "Dimensions"; "StartTime"; "EndTime"; "Period";
       key]%string /\
    lookup key (request m) = Some (VList [name]) /\
    truthy name = true /\
    ((key = "ExtendedStatistics"%string /\
      forall datapoint,
        extract_stat m datapoint
        = match subscript datapoint (VStr "ExtendedStatistics") with
          | Ok found => subscript found name
          | Raise e => Raise e
          end) \/
     (key = "Statistics"%string /\
      forall datapoint, extract_stat m datapoint = subscript datapoint name)).
Proof.
  intros H. apply SingleMetric_init_inv in H.
  destruct H as (kw & _ & Hx & Hs & start & stop & period & Ha & _).
  cbn zeta in *. unfold request, extract_stat. rewrite Ha, Hx.
  destruct (truthy (kwarg "extended_statistic" VNone kw)) eqn:Hext.
  - exists "ExtendedStatistics"%string, (kwarg "extended_statistic" VNone kw).
    repeat split; [exact Hext |]. left. split; reflexivity.
  - exists "Statistics"%string, (statistic m).
    repeat split.
    + rewrite Hs.
      destruct (truthy (kwarg "statistic" VNone kw)) eqn:Hst; [exact Hst | reflexivity].
    + right. split; reflexivity.
Qed.

(** X6: constructing a metric reads the clock exactly twice and does
    nothing else to the world: [StartTime] is the first reading minus the
    window, [EndTime] the second reading. *)
Theorem SingleMetric_init_reads_clock_twice
        window_days spec (s s' : state World) m :
  SingleMetric_init py svc window_days spec s = (Ok m, s') ->
  let first := utcnow svc (world s) in
  let second := utcnow svc (snd first) in
  s' = {| world := snd second; events := events s |} /\
  lookup "EndTime" (request m) = Some (VDatetime (fst second)) /\
  exists delta,
    timedelta_days py window_days = Ok delta /\
    lookup "StartTime" (request m) = Some (VDatetime (fst first - delta)).
Proof.
  unfold SingleMetric_init. intros H. split_run H.
  repeat match goal with
         | E : lift _ _ = _ |- _ => apply lift_inv in E; destruct E as [E ->]
         end.
  repeat match goal with
         | E : now svc _ = _ |- _ =>
             rewrite now_run in E; inversion E; clear E; subst
         end.
  cbn [world events] in *.
  match goal with E : datetime_sub _ _ = Ok _ |- _ =>
    unfold datetime_sub in E;
    match type of E with (if ?c then _ else _) = _ =>
      destruct c; [inversion E; clear E; subst | discriminate E] end end.
  cbn zeta.
  destruct (truthy (kwarg "extended_statistic" VNone a));
    [| destruct (truthy (kwarg "statistic" VNone a))];
    inversion H; subst; unfold request; cbn [stat_args app];
    (split; [reflexivity |]); (split; [reflexivity |]);
    eexists; (split; [eassumption | reflexivity]).
Qed.

(** X7: an entry with an integer [window_days] of its own that constructs
    an SLI constructs it over that window, whatever [WINDOW_DAYS] is: the
    metrics of the numerator and of the denominator are those of the
    entry's two lists, one for one and in order, and the query of every
    one of them has a period of [window_days] days and starts
    [window_days] days before the reading of the clock its construction
    began with. *)
Theorem SLI_with_window_days_spans_it (g : globals) cfg days (s s' : state World) sli :
  SLI_init py svc g (VDict cfg) s = (Ok sli, s') ->
  lookup "window_days" cfg = Some (VInt days) ->
  exists nums dens,
    iterate (kwarg "numerator" VNone cfg) = Ok nums /\
    iterate (kwarg "denominator" VNone cfg) = Ok dens /\
    constructed_in_turn svc days nums (metrics (numerator sli)) (world s) /\
    constructed_in_turn svc days dens (metrics (denominator sli))
                        (after_metrics svc (List.length nums) (world s)) /\
    s' = {| world := after_metrics svc (List.length dens)
                       (after_metrics svc (List.length nums) (world s));
            events := events s |}.
Proof.
  intros H Hwd. eapply SLI_init_in_turn; [exact H |].
  unfold kwarg. rewrite Hwd. reflexivity.
Qed.

(** X8: an entry whose [window_days] is [null], and an entry that gives
    the value of [WINDOW_DAYS] itself, construct exactly what the entry
    without [window_days] constructs, wherever the field stands. *)
Theorem window_days_null_is_default (g : globals) pre post (s : state World) :
  lookup "window_days" (pre ++ post) = None ->
  SLI_init py svc g (VDict (pre ++ ("window_days"%string, VNone) :: post)) s
  = SLI_init py svc g (VDict (pre ++ post)) s /\
  SLI_init py svc g
           (VDict (pre ++ ("window_days"%string, VInt (WINDOW_DAYS g)) :: post)) s
  = SLI_init py svc g (VDict (pre ++ post)) s.
Proof.
  intros Hwd. unfold SLI_init, bind, lift, bind_kwargs.
  cbn [sli_required forallb].
  rewrite !forallb_insert, !has_key_insert_other by reflexivity.
  cbn [fst mem_string sli_params existsb String.eqb Ascii.eqb Bool.eqb orb andb].
  destruct (forallb _ (pre ++ post) && _); [| split; reflexivity].
  unfold kwarg.
  rewrite !(lookup_insert_other "numerator"), !(lookup_insert_other "denominator")
    by reflexivity.
  rewrite !lookup_insert_same, Hwd by exact Hwd.
  split; reflexivity.
Qed.

(** X9: a configuration entry that is not an object, or lacks [numerator]
    or [denominator], or has a field that is none of [numerator],
    [denominator] and [window_days], raises [TypeError] before the clock
    is read. *)
Theorem SLI_init_rejects_bad_fields (g : globals) cfg (s : state World) :
  (forall d, cfg = VDict d ->
             has_key "numerator" d = false \/
             has_key "denominator" d = false \/
             exists k, In k (map fst d) /\ mem_string k sli_params = false) ->
  SLI_init py svc g cfg s = (Raise TypeError, s).
Proof.
  intros H. unfold SLI_init, bind, lift.
  assert (E : bind_kwargs sli_params sli_required cfg = Raise TypeError);
    [| rewrite E; reflexivity].
  unfold bind_kwargs. destruct cfg as [| | | | | | | d]; try reflexivity.
  destruct (H d eq_refl) as [Hn | [Hd | (k & Hin & Hk)]].
  - cbn [sli_required forallb]. rewrite Hn, andb_false_r. reflexivity.
  - cbn [sli_required forallb]. rewrite Hd.
    rewrite !andb_false_r. reflexivity.
  - destruct (forallb (fun kv => mem_string (fst kv) sli_params) d) eqn:F;
      [| reflexivity].
    rewrite forallb_forall in F. apply in_map_iff in Hin.
    destruct Hin as (kv & <- & Hin). rewrite (F kv Hin) in Hk. discriminate Hk.
Qed.

(** X10: an entry whose two lists are empty constructs the SLI without
    metrics whatever its [window_days] is, a string or a list included,
    and without reading the clock: [window_days] is only looked at when
    there is a metric to construct. *)
Theorem SLI_init_without_metrics (g : globals) cfg (s : state World) :
  forallb (fun kv => mem_string (fst kv) sli_params) cfg = true ->
  lookup "numerator" cfg = Some (VList []) ->
  lookup "denominator" cfg = Some (VList []) ->
  SLI_init py svc g (VDict cfg) s
  = (Ok {| numerator := {| metrics := [] |};
           denominator := {| metrics := [] |} |}, s).
Proof.
  intros Hkeys Hn Hd. unfold SLI_init, bind_kwargs, has_key.
  cbn [sli_required forallb]. rewrite Hkeys, Hn, Hd. cbn [andb].
  unfold bind at 1. unfold lift at 1. unfold kwarg. rewrite Hn, Hd.
  reflexivity.
Qed.

(** X11: a metric specification that binds and whose multiplier converts
    still raises [TypeError] when [window_days] is not a number, after one
    reading of the clock. *)
Theorem window_days_must_be_a_number window_days spec kw mult (s : state World) :
  is_number window_days = false ->
  bind_kwargs single_metric_params single_metric_required spec = Ok kw ->
  py_float py (kwarg "multiplier" (VFloat 1%float) kw) = Ok mult ->
  SingleMetric_init py svc window_days spec s
  = (Raise TypeError,
     {| world := snd (utcnow svc (world s)); events := events s |}).
Proof.
  intros Hwd Hkw Hm. unfold SingleMetric_init.
  unfold bind at 1. unfold lift at 1. rewrite Hkw.
  unfold bind at 1. unfold lift at 1. rewrite Hm.
  unfold bind at 1. rewrite now_run.
  unfold bind at 1. unfold lift at 1.
  destruct window_days; try discriminate Hwd; reflexivity.
Qed.

(** X12: a multiplier that [float] refuses makes the construction raise
    what [float] raised, before the clock is read; in particular a
    multiplier given as [null] is a [TypeError] (it is not replaced by the
    default, as a [null] window is). *)
Theorem multiplier_must_convert window_days spec kw (s : state World) :
  bind_kwargs single_metric_params single_metric_required spec = Ok kw ->
  (forall e,
     py_float py (kwarg "multiplier" (VFloat 1%float) kw) = Raise e ->
     SingleMetric_init py svc window_days spec s = (Raise e, s)) /\
  (lookup "multiplier" kw = Some VNone ->
   SingleMetric_init py svc window_days spec s = (Raise TypeError, s)).
Proof.
  intros Hkw.
  assert (G : forall e,
             py_float py (kwarg "multiplier" (VFloat 1%float) kw) = Raise e ->
             SingleMetric_init py svc window_days spec s = (Raise e, s)).
  { intros e He. unfold SingleMetric_init.
    unfold bind at 1. unfold lift at 1. rewrite Hkw.
    unfold bind at 1. unfold lift at 1. rewrite He. reflexivity. }
  split; [exact G |].
  intros Hnull. apply G. unfold kwarg. rewrite Hnull. reflexivity.
Qed.
End MoreConstruction.

(** ** What does not depend on the events *)

Section WorldOnly.
Context {World : Type}.

Lemma world_only_ret {A} (a : A) : world_only (World:=World) (ret a).
Proof.
  intros s t H. cbn. repeat split; auto. exists []. rewrite !app_nil_r. auto.
Qed.

Lemma world_only_lift {A} (o : outcome A) : world_only (World:=World) (lift o).
Proof.
  intros s t H. cbn. repeat split; auto. exists []. rewrite !app_nil_r. auto.
Qed.

Lemma world_only_emit ev : world_only (World:=World) (emit ev).
Proof.
  intros s t H. cbn. repeat split; auto. exists [ev]. auto.
Qed.

Lemma world_only_bind {A B} (m : @M World A) (k : A -> @M World B) :
  world_only m -> (forall a, world_only (k a)) -> world_only (bind m k).
Proof.
  intros Hm Hk s t H. unfold bind.
  destruct (Hm s t H) as (Hf & Hw & ev1 & E1 & E2).
  destruct (m s) as [[a | e] s1], (m t) as [[a' | e'] t1]; cbn [fst snd] in *;
    try discriminate Hf.
  - inversion Hf; subst a'.
    destruct (Hk a s1 t1 Hw) as (Hf2 & Hw2 & ev2 & F1 & F2).
    repeat split; auto. exists (ev1 ++ ev2).
    rewrite F1, F2, E1, E2, !app_assoc. auto.
  - inversion Hf; subst e'. repeat split; auto. exists ev1. auto.
Qed.

Lemma world_only_foldM {A B} (f : B -> A -> @M World B) xs :
  (forall acc x, world_only (f acc x)) ->
  forall acc, world_only (foldM f xs acc).
Proof.
  intros Hf. induction xs as [| x xs IH]; intros acc; cbn [foldM].
  - apply world_only_ret.
  - apply world_only_bind; [apply Hf | exact IH].
Qed.

Lemma world_only_mapM {A B} (f : A -> @M World B) xs :
  (forall x, world_only (f x)) -> world_only (mapM f xs).
Proof.
  intros Hf. induction xs as [| x xs IH]; cbn [mapM].
  - apply world_only_ret.
  - apply world_only_bind; [apply Hf |].
    intros y. apply world_only_bind; [exact IH |].
    intros ys. apply world_only_ret.
Qed.

Lemma world_only_try_except {A} (body : @M World A) handlers :
  world_only body ->
  (forall e h, handlers e = Some h -> world_only h) ->
  world_only (try_except body handlers).
Proof.
  intros Hb Hh s t H. unfold try_except.
  destruct (Hb s t H) as (Hf & Hw & ev1 & E1 & E2).
  destruct (body s) as [[a | e] s1], (body t) as [[a' | e'] t1]; cbn [fst snd] in *;
    try discriminate Hf.
  - repeat split; auto. exists ev1. auto.
  - inversion Hf; subst e'.
    destruct (handlers e) as [h |] eqn:Eh.
    + destruct (Hh e h Eh s1 t1 Hw) as (Hf2 & Hw2 & ev2 & F1 & F2).
      repeat split; auto. exists (ev1 ++ ev2).
      rewrite F1, F2, E1, E2, !app_assoc. auto.
    + repeat split; auto. exists ev1. auto.
Qed.
End WorldOnly.

Section ParsingMore.
Context {World : Type} (py : Builtins) (svc : Services World).

Lemma now_world_only : world_only (now svc).
Proof.
  intros s t H. unfold now. rewrite H.
  destruct (utcnow svc (world t)) as [x w]. cbn. repeat split; auto.
  exists []. rewrite !app_nil_r. auto.
Qed.

Lemma SingleMetric_init_world_only window_days spec :
  world_only (SingleMetric_init py svc window_days spec).
Proof.
  unfold SingleMetric_init.
  repeat first
    [ apply world_only_lift
    | apply now_world_only
    | apply world_only_ret
    | apply world_only_bind; [| intro]
    | match goal with |- world_only (if ?c then _ else _) => destruct c end ].
Qed.

Lemma SLI_init_world_only g cfg : world_only (SLI_init py svc g cfg).
Proof.
  unfold SLI_init, CompositeMetric_init.
  repeat first
    [ apply world_only_lift
    | apply world_only_ret
    | apply world_only_mapM; intro; apply SingleMetric_init_world_only
    | apply world_only_bind; [| intro] ].
Qed.

Lemma parse_sli_world_only g acc item : world_only (parse_sli py svc g acc item).
Proof.
  destruct item as [name cfg]. unfold parse_sli.
  apply world_only_try_except.
  - apply world_only_bind; [apply SLI_init_world_only | intro; apply world_only_ret].
  - intros e h. unfold parse_handlers.
    destruct (parse_catches e); [| discriminate].
    intros E. inversion E; subst h.
    apply world_only_bind; [apply world_only_emit | intro; apply world_only_ret].
Qed.

Lemma parse_loop_world_only g items acc :
  world_only (foldM (parse_sli py svc g) items acc).
Proof. apply world_only_foldM. intros; apply parse_sli_world_only. Qed.

Lemma parse_sli_rejected g acc name bad e (s : state World) :
  SLI_init py svc g bad s = (Raise e, s) ->
  parse_catches e = true ->
  parse_sli py svc g acc (name, bad) s
  = (Ok acc, {| world := world s;
                events := events s ++ [EvPrint (parse_error_line py name e)] |}).
Proof.
  intros Hbad He. unfold parse_sli, try_except, parse_handlers.
  unfold bind at 1. rewrite Hbad, He. reflexivity.
Qed.

Lemma parse_sli_configs_dict g items (s : state World) :
  parse_sli_configs py svc g (VDict items) s
  = foldM (parse_sli py svc g) items [] s.
Proof. reflexivity. Qed.

(** X13: an entry that is rejected before the clock is read (it is not an
    object, or its fields do not bind) leaves no trace in what is parsed:
    the configuration with the entry and the configuration without it
    parse to the same SLIs (or raise the same exception) and leave the same
    world; when parsing returns, the only difference is the line printed
    for the entry. *)
Theorem rejected_entry_leaves_no_trace
        (g : globals) pre name bad post e (s : state World) :
  (forall t : state World, SLI_init py svc g bad t = (Raise e, t)) ->
  parse_catches e = true ->
  let with_it := parse_sli_configs py svc g (VDict (pre ++ (name, bad) :: post)) s in
  let without := parse_sli_configs py svc g (VDict (pre ++ post)) s in
  fst with_it = fst without /\
  world (snd with_it) = world (snd without) /\
  (is_ok (fst with_it) = true ->
   exists before after,
     events (snd without) = events s ++ before ++ after /\
     events (snd with_it)
     = events s ++ before ++ EvPrint (parse_error_line py name e) :: after).
Proof.
  intros Hbad He. cbn zeta. rewrite !parse_sli_configs_dict, !foldM_app.
  unfold bind.
  destruct (parse_loop_world_only g pre [] s s eq_refl) as (_ & _ & before & Hpre & _).
  destruct (foldM (parse_sli py svc g) pre [] s) as [[acc | e0] s1];
    cbn [fst snd] in *; [| repeat split; discriminate].
  cbn [foldM]. unfold bind.
  rewrite (parse_sli_rejected g acc name bad e s1 (Hbad s1) He).
  set (s1' := {| world := world s1;
                 events := events s1 ++ [EvPrint (parse_error_line py name e)] |}).
  destruct (parse_loop_world_only g post acc s1' s1 eq_refl)
    as (Hf & Hw & after & E1 & E2).
  repeat split; [exact Hf | exact Hw |].
  intros _. exists before, after.
  rewrite E1, E2. subst s1'. cbn [events]. rewrite Hpre, <- !app_assoc.
  split; reflexivity.
Qed.
End ParsingMore.

(** ** How parsing and publishing fail *)

Section Failures.
Context {World : Type} (py : Builtins) (svc : Services World).

(** A loop that raises does so in one of its iterations, after the
    iterations before it have returned. *)
Lemma foldM_Raise_inv {A B} (f : B -> A -> @M World B) :
  forall xs acc (s s' : state World) e,
    foldM f xs acc s = (Raise e, s') ->
    exists before x after acc1 s1,
      xs = before ++ x :: after /\
      foldM f before acc s = (Ok acc1, s1) /\
      f acc1 x s1 = (Raise e, s').
Proof.
  induction xs as [| x xs IH]; intros acc s s' e H; cbn [foldM] in H.
  - discriminate H.
  - unfold bind in H. destruct (f acc x s) as [[b | e0] s1] eqn:Hx.
    + apply IH in H. destruct H as (before & y & after & acc1 & s2 & -> & Hb & Hy).
      exists (x :: before), y, after, acc1, s2. repeat split; [| exact Hy].
      cbn [foldM]. unfold bind. rewrite Hx. exact Hb.
    + inversion H; subst. exists [], x, xs, acc, s. repeat split. exact Hx.
Qed.

(** An iteration of the loop of [parse_sli_json] raises what the
    construction of its entry raised, in the state the construction
    left. *)
Lemma parse_sli_Raise_inv g acc name sli_config (s s' : state World) e :
  parse_sli py svc g acc (name, sli_config) s = (Raise e, s') ->
  SLI_init py svc g sli_config s = (Raise e, s') /\ parse_catches e = false.
Proof.
  unfold parse_sli, try_except, parse_handlers. unfold bind at 1.
  destruct (SLI_init py svc g sli_config s) as [[sli | e0] s1]; [discriminate |].
  destruct (parse_catches e0) eqn:He0.
  - unfold bind, print, emit, ret. discriminate.
  - intros H. inversion H; subst. split; [reflexivity | exact He0].
Qed.

(** X14: on a text that [json.loads] loads, [parse_sli_json] raises in two
    ways only.  Either the value loaded is not an object: then it raises
    [AttributeError] (from [.items()]) and has done nothing.  Or the
    construction of one entry raised an exception that is none of
    [KeyError], [TypeError] and [ValueError], after the entries before it
    were processed without raising: then it raises that exception, in the
    state that construction left, and the entries after it are not
    looked at. *)
Theorem parse_sli_json_failures
        (g : globals) sli_json loaded (s s' : state World) e :
  json_loads py sli_json = Some loaded ->
  parse_sli_json py svc g sli_json s = (Raise e, s') ->
  ((forall d, loaded <> VDict d) /\ e = AttributeError /\ s' = s) \/
  (exists before name sli_config after slis s1,
     loaded = VDict (before ++ (name, sli_config) :: after) /\
     foldM (parse_sli py svc g) before [] s = (Ok slis, s1) /\
     SLI_init py svc g sli_config s1 = (Raise e, s') /\
     parse_catches e = false).
Proof.
  intros Hload. unfold parse_sli_json. unfold bind at 1. unfold lift at 1.
  rewrite Hload.
  destruct loaded as [| | | | | | | d];
    try (intros H; inversion H; subst; left; repeat split; discriminate).
  rewrite parse_sli_configs_dict. intros H. right.
  apply foldM_Raise_inv in H.
  destruct H as (before & [name sli_config] & after & slis & s1 & -> & Hb & Hx).
  apply parse_sli_Raise_inv in Hx. destruct Hx as [Hx He].
  exists before, name, sli_config, after, slis, s1. repeat split; assumption.
Qed.

(** How one iteration of the loop of [publish_slis] raises. *)
Lemma publish_sli_raises sli_namespace sli_prefix name sli (s s' : state World) e :
  publish_sli py svc sli_namespace sli_prefix (name, sli) s = (Raise e, s') ->
  e <> ZeroDivisionError /\
  (publish_catches e = true ->
   exists v evs,
     events s' = evs ++ [EvPut (metric_data_kwargs sli_namespace sli_prefix name v)]).
Proof.
  unfold publish_sli, try_except. unfold bind.
  destruct (get_ratio svc sli s) as [[v | e0] s1].
  - unfold ret, print, emit, cloudwatch_put. cbn [world events].
    destruct (put_metric_data svc _ (world s1)) as [[b | r] w]; [| discriminate].
    intros H. inversion H; subst. split.
    + destruct b; discriminate.
    + intros _. eexists _, _. reflexivity.
  - destruct e0; cbn [publish_handlers];
      try (intros H; inversion H; subst; split; discriminate);
      unfold bind, print, emit, ret; discriminate.
Qed.

(** X15: a division by zero never leaves [publish_slis]; and a botocore
    exception leaves it only from a write: when [publish_slis] raises
    [ClientError] or [BotoCoreError], the last thing it did was the call to
    [put_metric_data] for one of the SLIs of the mapping. *)
Theorem publish_slis_failures
        slis sli_namespace sli_prefix (s s' : state World) e :
  publish_slis py svc slis sli_namespace sli_prefix s = (Raise e, s') ->
  e <> ZeroDivisionError /\
  (publish_catches e = true ->
   exists name v evs,
     In name (map fst slis) /\
     events s' = evs ++ [EvPut (metric_data_kwargs sli_namespace sli_prefix name v)]).
Proof.
  unfold publish_slis, for_each. revert s.
  induction slis as [| [name sli] slis IH]; intros s; cbn [foldM].
  - discriminate.
  - intros H. apply bind_Raise_inv in H.
    destruct H as [H | ([] & s1 & _ & H)].
    + apply publish_sli_raises in H. destruct H as [Hz Hb].
      split; [exact Hz |]. intros Hc. destruct (Hb Hc) as (v & evs & Hev).
      exists name, v, evs. split; [left; reflexivity | exact Hev].
    + destruct (IH _ H) as [Hz Hb]. split; [exact Hz |].
      intros Hc. destruct (Hb Hc) as (n & v & evs & Hin & Hev).
      exists n, v, evs. split; [right; exact Hin | exact Hev].
Qed.


End Failures.

(** ** A whole invocation *)

Lemma puts_of_prints lines : puts (map EvPrint lines) = [].
Proof. induction lines as [| l ls IH]; [reflexivity | exact IH]. Qed.

Section EndToEnd.
Context {World : Type} (py : Builtins) (svc : Services World).

(** The loop of [parse_sli_json] over attempts that all survive. *)
Lemma parse_sli_configs_runs_all_attempts g items (s : state World) :
  NoDup (map fst items) ->
  forallb parse_survivable (fst (parse_attempts py svc g items s)) = true ->
  parse_sli_configs py svc g (VDict items) s
  = (Ok (constructed (fst (parse_attempts py svc g items s))),
     snd (parse_attempts py svc g items s))
  /\ puts (events (snd (parse_attempts py svc g items s))) = puts (events s).
Proof.
  intros Hnd Hall. destruct (parse_loop py svc g items [] s Hall) as [Hrun Hev].
  split.
  - rewrite parse_sli_configs_dict, Hrun, fold_dict_set_fresh; [reflexivity |].
    cbn [app]. apply constructed_NoDup. rewrite parse_attempts_names. exact Hnd.
  - rewrite Hev, puts_app, puts_of_prints, app_nil_r. reflexivity.
Qed.

(** X17: with the four variables set and a configuration that loads as an
    object, an invocation in which every construction returns or raises an
    exception [parse_sli_json] catches, and every SLI constructed has its
    ratio written or fails in a way [publish_slis] catches, returns
    without raising; what it wrote is one datum for each SLI that was
    constructed and whose ratio was obtained, in the order of the
    configuration. *)
Theorem invocation_completes
        environ sli_namespace sli_prefix sli_json t days items (s : state World) :
  lookup "SLI_NAMESPACE" environ = Some sli_namespace ->
  lookup "SLI_PREFIX" environ = Some sli_prefix ->
  lookup "SLIS" environ = Some sli_json ->
  lookup "WINDOW_DAYS" environ = Some t ->
  int_of_str py t = Some days ->
  json_loads py sli_json = Some (VDict items) ->
  NoDup (map fst items) ->
  let g := {| SLI_NAMESPACE := Some sli_namespace; SLI_PREFIX := Some sli_prefix;
              SLIS := Some sli_json; WINDOW_DAYS := days |} in
  let parsing := parse_attempts py svc g items s in
  forallb parse_survivable (fst parsing) = true ->
  let publishing :=
    publish_attempts py svc sli_namespace sli_prefix
                     (constructed (fst parsing)) (snd parsing) in
  forallb survivable (fst publishing) = true ->
  invocation py svc environ s = (Ok tt, snd publishing) /\
  puts (events (snd publishing))
  = puts (events s) ++ expected_puts sli_namespace sli_prefix (fst publishing).
Proof.
  intros Hns Hpre Hslis Hwd Hint Hjson Hnd g parsing Hparse publishing Hpublish.
  destruct (parse_sli_configs_runs_all_attempts g items s Hnd Hparse)
    as [Hrun Hputs].
  destruct (publish_slis_runs_all_attempts py svc _ _ _ _ Hpublish)
    as [Hpub Hpp].
  split.
  - unfold invocation, module_globals. rewrite Hwd, Hint, Hns, Hpre, Hslis.
    unfold bind at 1. unfold lift at 1.
    unfold main, lambda_handler. cbn [SLI_NAMESPACE SLI_PREFIX SLIS].
    unfold bind at 1. unfold parse_sli_json.
    unfold bind at 1. unfold lift at 1. rewrite Hjson.
    fold g. rewrite Hrun. exact Hpub.
  - subst publishing parsing. rewrite Hpp, Hputs. reflexivity.
Qed.

Lemma cloudwatch_get_world_only kwargs : world_only (cloudwatch_get svc kwargs).
Proof.
  intros s t H. unfold cloudwatch_get. rewrite H.
  destruct (get_metric_statistics svc kwargs (world t)) as [[b | v] w];
    cbn; repeat split; auto; exists [EvGet kwargs]; auto.
Qed.

Lemma SingleMetric_sum_world_only m : world_only (SingleMetric_sum svc m).
Proof.
  unfold SingleMetric_sum.
  repeat first
    [ apply world_only_lift
    | apply world_only_ret
    | apply cloudwatch_get_world_only
    | apply world_only_foldM; intros
    | apply world_only_bind; [| intro] ].
Qed.

(** X19: a fetch whose query leaves the world as it was gives the same
    result when it is made again. *)
Theorem SingleMetric_sum_repeatable m (s : state World) :
  snd (get_metric_statistics svc (request m) (world s)) = world s ->
  fst (SingleMetric_sum svc m (snd (SingleMetric_sum svc m s)))
  = fst (SingleMetric_sum svc m s).
Proof.
  intros Hw. apply SingleMetric_sum_world_only.
  rewrite SingleMetric_sum_state. cbn [world]. exact Hw.
Qed.
End EndToEnd.

(** ** The client is made once *)

Section Cache.
Context {World Client : Type}.
Variable boto3_client :
  string -> World -> (botocore_exception + Client) * World.

(** X18: once [Cloudwatch.client()] has returned a client, every later call
    returns that same client and leaves the state as it is: [boto3.client]
    is not called again.  A call that fails leaves no client behind, so
    the next call tries again. *)
Theorem client_is_made_once (st st1 : option Client * World) :
  (forall c,
     Cloudwatch.client boto3_client st = (inr c, st1) ->
     forall n,
       Cloudwatch.clients boto3_client n st1 = (repeat (inr c) n, st1)) /\
  (forall b,
     Cloudwatch.client boto3_client st = (inl b, st1) -> fst st1 = None).
Proof.
  split.
  - intros c H n.
    assert (Hc : fst st1 = Some c).
    { unfold Cloudwatch.client in H. destruct st as [[c0 |] w]; cbn [fst snd] in H.
      - inversion H; subst. reflexivity.
      - destruct (boto3_client "cloudwatch" w) as [[b | c1] w1];
          inversion H; subst; reflexivity. }
    induction n as [| n IH]; [reflexivity |].
    cbn [Cloudwatch.clients repeat]. unfold Cloudwatch.client at 1.
    rewrite Hc, IH. reflexivity.
  - intros b H. unfold Cloudwatch.client in H.
    destruct st as [[c0 |] w]; cbn [fst snd] in H; [discriminate H |].
    destruct (boto3_client "cloudwatch" w) as [[b1 | c1] w1];
      inversion H; subst; reflexivity.
Qed.
End Cache.

(** ** What parsing leaves alone *)

Lemma prints_are_printed evs :
  forallb is_print evs = true -> evs = map EvPrint (printed evs).
Proof.
  induction evs as [| ev evs IH]; cbn [forallb]; intros H.
  - reflexivity.
  - apply andb_prop in H. destruct H as [Hev Hevs].
    destruct ev; try discriminate Hev. cbn. f_equal. apply IH, Hevs.
Qed.

Section Silence.
Context {World : Type} (py : Builtins) (svc : Services World).

Lemma emits_only_try_except {A} P (body : @M World A) handlers :
  emits_only P body ->
  (forall e h, handlers e = Some h -> emits_only P h) ->
  emits_only P (try_except body handlers).
Proof.
  intros Hb Hh s. unfold try_except.
  destruct (Hb s) as (ev1 & E1 & F1).
  destruct (body s) as [[a | e] s1]; cbn [snd] in *.
  - exists ev1. auto.
  - destruct (handlers e) as [h |] eqn:Eh.
    + destruct (Hh e h Eh s1) as (ev2 & E2 & F2).
      exists (ev1 ++ ev2). rewrite E2, E1, app_assoc, forallb_app, F1, F2. auto.
    + exists ev1. auto.
Qed.

Lemma print_emits line : emits_only (World:=World) is_print (print line).
Proof. intros s. exists [EvPrint line]. auto. Qed.

(** X21: parsing never touches CloudWatch: whatever the text and whatever
    the outcome, all [parse_sli_json] adds to the events are printed
    lines. *)
Theorem parse_sli_json_only_prints (g : globals) sli_json (s : state World) :
  exists lines,
    events (snd (parse_sli_json py svc g sli_json s))
    = events s ++ map EvPrint lines.
Proof.
  assert (H : emits_only is_print (parse_sli_json py svc g sli_json)).
  { unfold parse_sli_json, parse_sli_configs.
    apply emits_only_bind; [apply emits_only_lift | intros v].
    apply emits_only_bind; [apply emits_only_lift | intros items].
    apply emits_only_foldM. intros acc [name cfg]. unfold parse_sli.
    apply emits_only_try_except.
    - apply emits_only_bind; [apply SLI_init_quiet | intros; apply emits_only_ret].
    - intros e h. unfold parse_handlers.
      destruct (parse_catches e); [| discriminate].
      intros E. inversion E; subst h.
      apply emits_only_bind; [apply print_emits | intros; apply emits_only_ret]. }
  destruct (H s) as (evs & E & F). exists (printed evs).
  rewrite E, <- prints_are_printed by exact F. reflexivity.
Qed.
End Silence.

Section MissingKey.
Context {World : Type} (svc : Services World).

(** X20: when the datapoints before the first one that lacks the statistic
    all carry a number, the fetch raises a [KeyError]; the datapoints after
    it are not looked at. *)
Theorem SingleMetric_sum_first_missing_key
        (m : SingleMetric) (s : state World) resp w before datapoint after :
  get_metric_statistics svc (request m) (world s) = (inr resp, w) ->
  subscript resp (VStr "Datapoints") = Ok (VList (before ++ datapoint :: after)) ->
  Forall (fun dp => exists v x, extract_stat m dp = Ok v /\ float_operand v = Ok x)
         before ->
  stat_key_absent m datapoint = true ->
  exists key,
    SingleMetric_sum svc m s
    = (Raise (KeyError key),
       {| world := w; events := events s ++ [EvGet (request m)] |}).
Proof.
  intros Hget Hdps Hbefore Habs.
  destruct (extract_stat_absent _ _ Habs) as (key & Hkey). exists key.
  unfold SingleMetric_sum.
  unfold bind at 1. unfold cloudwatch_get. rewrite Hget.
  unfold bind at 1. unfold lift at 1. rewrite Hdps.
  unfold bind at 1. unfold lift at 1. cbn [iterate].
  unfold bind at 1. rewrite foldM_app. unfold bind at 1.
  assert (Hsum : exists xs,
             Forall2 (fun dp x => exists v, extract_stat m dp = Ok v /\
                                            float_operand v = Ok x) before xs).
  { clear -Hbefore. induction Hbefore as [| dp dps (v & x & Hv & Hx) _ (xs & IH)].
    - exists []. constructor.
    - exists (x :: xs). constructor; [exists v; auto | exact IH]. }
  destruct Hsum as (xs & Hxs).
  rewrite (sum_loop_total m before xs Hxs).
  cbn [foldM]. unfold bind at 1. unfold bind at 1. unfold lift at 1.
  rewrite Hkey. reflexivity.
Qed.
End MissingKey.

(** * The properties on the demo runtime *)

Import Demo.

(** The availability SLI evaluates to 95/100. *)
Lemma get_ratio_divides_demo :
  fst (get_ratio demo_services (fst (built availability)) (snd (built availability)))
  = Ok (PrimFloat.div 95 100).
Proof.
  pose proof (proj2 (get_ratio_divides demo_services (fst (built availability))
                                       (snd (built availability)))) as H.
  erewrite H; [reflexivity | | | ]; reflexivity.
Defined.

(** Two datapoints with averages 7 and 9 (and sums 1000 and 2000), read
    through [Average] and doubled, are fetched as 32: the configured
    statistic of each, added up, times the multiplier. *)
Lemma SingleMetric_sum_adds_all_datapoints_demo :
  fst (SingleMetric_sum demo_services (metric (VDict doubled_average)) start)
  = Ok 32%float.
Proof.
  destruct (SingleMetric_sum_adds_all_datapoints
              demo_builtins demo_services (VInt 1) doubled_average start
              (snd (SingleMetric_init demo_builtins demo_services (VInt 1)
                                      (VDict doubled_average) start))
              start (metric (VDict doubled_average))
              (response [VDict [("Sum", VFloat 1000); ("Average", VFloat 7)];
                         VDict [("Sum", VFloat 2000); ("Average", VFloat 9)]]%string)
              epoch
              [VDict [("Sum", VFloat 1000); ("Average", VFloat 7)];
               VDict [("Sum", VFloat 2000); ("Average", VFloat 9)]]%string
              [7%float; 9%float]
              ltac:(vm_compute; reflexivity) eq_refl eq_refl
              ltac:(repeat constructor; eexists; split; reflexivity))
    as (mult & Hmult & Hrun).
  rewrite Hrun. vm_compute in Hmult. inversion Hmult. reflexivity.
Defined.

(** A specification with no statistic at all asks for [Sum]. *)
Lemma SingleMetric_defaults_to_Sum_demo :
  lookup "Statistics" (request (metric (spec "Success" [])))
  = Some (VList [VStr "Sum"]).
Proof.
  refine (proj1 (SingleMetric_defaults_to_Sum demo_builtins demo_services (VInt 1)
                   (spec_items "Success" []) start
                   (snd (SingleMetric_init demo_builtins demo_services (VInt 1)
                                           (spec "Success" []) start))
                   (metric (spec "Success" [])) _ _ _));
    vm_compute; reflexivity.
Defined.

(** A specification with [Average] and [p99] asks for [p99] only. *)
Lemma extended_statistic_takes_precedence_demo :
  let m := metric (spec "Latency" [("statistic"%string, VStr "Average");
                                   ("extended_statistic"%string, VStr "p99")]) in
  lookup "ExtendedStatistics" (request m) = Some (VList [VStr "p99"]) /\
  lookup "Statistics" (request m) = None.
Proof.
  intros m.
  pose proof (extended_statistic_takes_precedence demo_builtins demo_services
                (VInt 1)
                (spec_items "Latency" [("statistic"%string, VStr "Average");
                                       ("extended_statistic"%string, VStr "p99")])
                start
                (snd (SingleMetric_init demo_builtins demo_services (VInt 1)
                        (spec "Latency" [("statistic"%string, VStr "Average");
                                         ("extended_statistic"%string, VStr "p99")])
                        start))
                m) as H.
  specialize (H ltac:(vm_compute; reflexivity) eq_refl eq_refl).
  split; [exact (proj1 H) | exact (proj1 (proj2 H))].
Defined.

(** Datapoints that carry [Average] only, read through [Sum]. *)
Lemma SingleMetric_sum_missing_statistic_raises_demo :
  exists e s, SingleMetric_sum demo_services (metric (spec "Mean" [])) start = (Raise e, s).
Proof.
  destruct (SingleMetric_sum_missing_statistic_raises demo_services
              (metric (spec "Mean" [])) start _ _ _ eq_refl eq_refl eq_refl)
    as (e & H).
  exists e. eexists. exact H.
Defined.

(** An environment without [SLI_PREFIX]. *)
Lemma missing_configuration_is_fatal_demo :
  exists e,
    invocation demo_builtins demo_services
               [("SLI_NAMESPACE", "sli"); ("SLIS", "{}"); ("WINDOW_DAYS", "30")]%string
               start
    = (Raise e, start).
Proof.
  apply missing_configuration_is_fatal. right. left. reflexivity.
Defined.

(** An entry without [window_days], under [WINDOW_DAYS = 30]: its
    numerator is the metric of its one numerator specification, its
    denominator the metric of its one denominator specification, each over
    30 days. *)
Lemma SLI_without_window_days_spans_default_demo :
  exists nums dens,
    iterate (kwarg "numerator" VNone
                   (entry_items [spec "Success" []] [spec "Total" []] []))
    = Ok nums /\
    iterate (kwarg "denominator" VNone
                   (entry_items [spec "Success" []] [spec "Total" []] []))
    = Ok dens /\
    constructed_in_turn demo_services 30 nums
                        (metrics (numerator (fst (built availability_default))))
                        epoch /\
    constructed_in_turn demo_services 30 dens
                        (metrics (denominator (fst (built availability_default))))
                        (after_metrics demo_services (List.length nums) epoch) /\
    snd (built availability_default)
    = {| world := after_metrics demo_services (List.length dens)
                    (after_metrics demo_services (List.length nums) epoch);
         events := [] |}.
Proof.
  exact (SLI_without_window_days_spans_default demo_builtins demo_services
           demo_globals (entry_items [spec "Success" []] [spec "Total" []] [])
           start (snd (built availability_default))
           (fst (built availability_default))
           ltac:(vm_compute; reflexivity) eq_refl).
Defined.

(** C10, as stated, fails: an SLI with an empty denominator list whose
    numerator CloudWatch refuses to serve fails [get_ratio] with the
    [ClientError] of the numerator's query, not with [ZeroDivisionError]. *)
Lemma empty_denominator_fails_with_numerator_error :
  fst (SLI_init demo_builtins demo_services demo_globals refused_over_nothing start)
  = Ok (fst (built refused_over_nothing)) /\
  metrics (denominator (fst (built refused_over_nothing))) = [] /\
  fst (get_ratio demo_services (fst (built refused_over_nothing))
                 (snd (built refused_over_nothing)))
  = Raise (ClientError "AccessDenied") /\
  fst (get_ratio demo_services (fst (built refused_over_nothing))
                 (snd (built refused_over_nothing)))
  <> Raise ZeroDivisionError.
Proof.
  repeat split; try (vm_compute; reflexivity).
  vm_compute. discriminate.
Qed.

(** An SLI over no denominator whose numerator is served divides by zero. *)
Lemma empty_composite_is_zero_demo :
  fst (get_ratio demo_services (fst (built over_nothing)) (snd (built over_nothing)))
  = Raise ZeroDivisionError.
Proof.
  rewrite (proj2 (empty_composite_is_zero demo_builtins demo_services)
             demo_globals (entry_items [spec "Success" []] [] []) start
             (snd (built over_nothing)) (fst (built over_nothing))
             ltac:(vm_compute; reflexivity) eq_refl).
  vm_compute. reflexivity.
Defined.

(** C3, as stated, fails.  An entry with a negative [window_days] and an
    unknown statistic is constructed and returned like any other, and
    nothing is printed; and an entry whose window reaches back before the
    year 1 raises [OverflowError] out of [parse_sli_json], which returns
    nothing for the entries that follow. *)
Lemma parse_sli_json_validates_nothing :
  (lookup "window_days" (entry_items [spec "Success" [("statistic"%string, VStr "Bogus")]]
                                     [spec "Total" []]
                                     [("window_days"%string, VInt (-3))])
   = Some (VInt (-3)) /\
   fst (parse_sli_json demo_builtins demo_services demo_globals
                       (json_text unchecked) start)
   = Ok [("backwards"%string, fst (built backwards))] /\
   events (snd (parse_sli_json demo_builtins demo_services demo_globals
                               (json_text unchecked) start)) = []) /\
  parse_sli_json demo_builtins demo_services demo_globals
                 (json_text overflowing) start
  = (Raise OverflowError, {| world := epoch + 1; events := [] |}).
Proof. repeat split; vm_compute; reflexivity. Qed.

(** Of three entries, the one without numerator is dropped with a line,
    the two that construct are returned. *)
Lemma parse_sli_json_keeps_what_constructs_demo :
  map fst (fst (parsed mixed)) = ["availability"; "backwards"]%string /\
  printed (events (snd (parsed mixed)))
  = ["Skipping malformed SLI headless: type"%string].
Proof.
  destruct (parse_sli_json_keeps_what_constructs demo_builtins demo_services
              demo_globals (json_text mixed)
              [("availability"%string, availability);
               ("headless"%string, headless);
               ("backwards"%string, backwards)] start)
    as (Hrun & _ & Hev).
  - vm_compute. reflexivity.
  - repeat constructor; cbn; intuition discriminate.
  - vm_compute. reflexivity.
  - unfold parsed. rewrite Hrun. cbn [fst snd]. rewrite Hev.
    split; vm_compute; reflexivity.
Defined.

(** C1, as stated, fails.  A [KeyError] raised while the first SLI's ratio
    is computed leaves [publish_slis]: the second SLI is never evaluated
    and nothing is written.  A write that CloudWatch refuses leaves
    [publish_slis] too: the second SLI is never evaluated (two queries
    were made, those of the first SLI). *)
Lemma publish_slis_aborts_on_other_failures :
  (map fst (fst (parsed misread_first)) = ["misread"; "availability"]%string /\
   fst (publish_slis demo_builtins demo_services (fst (parsed misread_first))
                     "sli" "prod" (snd (parsed misread_first)))
   = Raise (KeyError (VStr "Sum")) /\
   puts (events (snd (publish_slis demo_builtins demo_services
                                   (fst (parsed misread_first))
                                   "sli" "prod" (snd (parsed misread_first)))))
   = []) /\
  (map fst (fst (parsed pair)) = ["availability"; "monthly"]%string /\
   fst (publish_slis demo_builtins demo_services (fst (parsed pair))
                     "locked" "prod" (snd (parsed pair)))
   = Raise (ClientError "AccessDenied") /\
   gets (events (snd (publish_slis demo_builtins demo_services (fst (parsed pair))
                                   "locked" "prod" (snd (parsed pair)))))
   = 2%nat).
Proof. repeat split; vm_compute; reflexivity. Qed.

(** Of four SLIs, one divides by zero and one is refused by CloudWatch; the
    other two are written. *)
Lemma publish_slis_isolates_caught_failures_demo :
  fst (publish_slis demo_builtins demo_services (fst (parsed batch))
                    "sli" "prod" (snd (parsed batch)))
  = Ok tt /\
  map (lookup "Namespace")
      (puts (events (snd (publish_slis demo_builtins demo_services
                                       (fst (parsed batch))
                                       "sli" "prod" (snd (parsed batch))))))
  = [Some (VStr "sli"); Some (VStr "sli")].
Proof.
  destruct (proj2 (publish_slis_isolates_caught_failures
                     demo_builtins demo_services "sli" "prod")
                  (fst (parsed batch)) (snd (parsed batch)))
    as (Hrun & _ & Hputs).
  - vm_compute. reflexivity.
  - rewrite Hrun. cbn [fst snd]. rewrite Hputs.
    split; vm_compute; reflexivity.
Defined.

(** ** The further properties on the demo runtime *)

(** A metric CloudWatch refuses is fetched as the refusal itself. *)
Lemma SingleMetric_sum_attempts_query_once_demo :
  fst (SingleMetric_sum demo_services (metric (spec "Restricted" [])) start)
  = Raise (ClientError "AccessDenied").
Proof.
  apply (proj2 (proj2 (SingleMetric_sum_attempts_query_once
                         demo_services (metric (spec "Restricted" [])) start))
               (ClientErr "AccessDenied")).
  vm_compute. reflexivity.
Defined.

(** Successes (95) and totals (100) in one composite sum to 195. *)
Lemma CompositeMetric_sum_snoc_demo :
  fst (CompositeMetric_sum demo_services
         {| metrics := [metric (spec "Success" [])] ++ [metric (spec "Total" [])] |}
         start)
  = Ok 195%float.
Proof.
  rewrite (CompositeMetric_sum_snoc demo_services
             [metric (spec "Success" [])] (metric (spec "Total" [])) start
             (snd (SingleMetric_sum demo_services (metric (spec "Success" [])) start))
             (snd (SingleMetric_sum demo_services (metric (spec "Total" []))
                     (snd (SingleMetric_sum demo_services
                             (metric (spec "Success" [])) start))))
             95%float 100%float
             ltac:(vm_compute; reflexivity) ltac:(vm_compute; reflexivity)).
  reflexivity.
Defined.

(** A refused metric between two served ones: the sum is the refusal, after
    two queries. *)
Lemma CompositeMetric_sum_aborts_demo :
  fst (CompositeMetric_sum demo_services
         {| metrics := [metric (spec "Success" [])]
                       ++ metric (spec "Restricted" []) :: [metric (spec "Total" [])] |}
         start)
  = Raise (ClientError "AccessDenied") /\
  gets (events (snd (CompositeMetric_sum demo_services
         {| metrics := [metric (spec "Success" [])]
                       ++ metric (spec "Restricted" []) :: [metric (spec "Total" [])] |}
         start)))
  = 2%nat.
Proof.
  rewrite (CompositeMetric_sum_aborts demo_services
             [metric (spec "Success" [])] (metric (spec "Restricted" []))
             [metric (spec "Total" [])] start
             (snd (SingleMetric_sum demo_services (metric (spec "Success" [])) start))
             (snd (SingleMetric_sum demo_services (metric (spec "Restricted" []))
                     (snd (SingleMetric_sum demo_services
                             (metric (spec "Success" [])) start))))
             95%float (ClientError "AccessDenied")
             ltac:(vm_compute; reflexivity) ltac:(vm_compute; reflexivity)).
  split; vm_compute; reflexivity.
Defined.


(** The query of a percentile metric. *)
Lemma SingleMetric_request_shape_demo :
  let m := metric (spec "Latency" [("extended_statistic"%string, VStr "p99")]) in
  exists key name,
    map fst (request m)
    = ["Namespace"; "MetricName"; "Dimensions"; "StartTime"; "EndTime"; "Period";
       key]%string /\
    lookup key (request m) = Some (VList [name]) /\
    truthy name = true /\
    ((key = "ExtendedStatistics"%string /\
      forall datapoint,
        extract_stat m datapoint
        = match subscript datapoint (VStr "ExtendedStatistics") with
          | Ok found => subscript found name
          | Raise e => Raise e
          end) \/
     (key = "Statistics"%string /\
      forall datapoint, extract_stat m datapoint = subscript datapoint name)).
Proof.
  exact (SingleMetric_request_shape demo_builtins demo_services (VInt 1)
           (spec "Latency" [("extended_statistic"%string, VStr "p99")]) start
           (snd (SingleMetric_init demo_builtins demo_services (VInt 1)
                   (spec "Latency" [("extended_statistic"%string, VStr "p99")])
                   start))
           (metric (spec "Latency" [("extended_statistic"%string, VStr "p99")]))
           ltac:(vm_compute; reflexivity)).
Defined.

(** A metric constructed at the epoch ends one microsecond later and starts
    one day before the epoch. *)
Lemma SingleMetric_init_reads_clock_twice_demo :
  lookup "EndTime" (request (metric (spec "Success" []))) = Some (VDatetime (epoch + 1)) /\
  world (snd (SingleMetric_init demo_builtins demo_services (VInt 1)
                                (spec "Success" []) start))
  = epoch + 2.
Proof.
  destruct (SingleMetric_init_reads_clock_twice demo_builtins demo_services (VInt 1)
              (spec "Success" []) start
              (snd (SingleMetric_init demo_builtins demo_services (VInt 1)
                      (spec "Success" []) start))
              (metric (spec "Success" []))
              ltac:(vm_compute; reflexivity))
    as (Hs & Hend & _).
  split; [exact Hend | rewrite Hs; reflexivity].
Defined.

(** The availability SLI names a window of one day. *)
Lemma SLI_with_window_days_spans_it_demo :
  exists nums dens,
    iterate (kwarg "numerator" VNone
                   (entry_items [spec "Success" []] [spec "Total" []]
                                [("window_days"%string, VInt 1)]))
    = Ok nums /\
    iterate (kwarg "denominator" VNone
                   (entry_items [spec "Success" []] [spec "Total" []]
                                [("window_days"%string, VInt 1)]))
    = Ok dens /\
    constructed_in_turn demo_services 1 nums
                        (metrics (numerator (fst (built availability)))) epoch /\
    constructed_in_turn demo_services 1 dens
                        (metrics (denominator (fst (built availability))))
                        (after_metrics demo_services (List.length nums) epoch) /\
    snd (built availability)
    = {| world := after_metrics demo_services (List.length dens)
                    (after_metrics demo_services (List.length nums) epoch);
         events := [] |}.
Proof.
  exact (SLI_with_window_days_spans_it demo_builtins demo_services demo_globals
           (entry_items [spec "Success" []] [spec "Total" []]
                        [("window_days"%string, VInt 1)])
           1 start (snd (built availability)) (fst (built availability))
           ltac:(vm_compute; reflexivity) eq_refl).
Defined.

(** The availability entry with a [null] window constructs what the entry
    without window constructs. *)
Lemma window_days_null_is_default_demo :
  SLI_init demo_builtins demo_services demo_globals
           (entry [spec "Success" []] [spec "Total" []]
                  [("window_days"%string, VNone)]) start
  = SLI_init demo_builtins demo_services demo_globals availability_default start.
Proof.
  exact (proj1 (window_days_null_is_default demo_builtins demo_services demo_globals
                  (entry_items [spec "Success" []] [spec "Total" []] []) [] start
                  eq_refl)).
Defined.

(** The entry without numerator is refused. *)
Lemma SLI_init_rejects_bad_fields_demo :
  SLI_init demo_builtins demo_services demo_globals headless start
  = (Raise TypeError, start).
Proof.
  apply SLI_init_rejects_bad_fields.
  intros d E. inversion E. left. reflexivity.
Defined.

(** An entry without metrics constructs, its window being a string. *)
Lemma SLI_init_without_metrics_demo :
  SLI_init demo_builtins demo_services demo_globals (VDict vacuous_items) start
  = (Ok {| numerator := {| metrics := [] |}; denominator := {| metrics := [] |} |},
     start).
Proof.
  apply SLI_init_without_metrics; reflexivity.
Defined.

(** The same window with a metric to construct. *)
Lemma window_days_must_be_a_number_demo :
  SingleMetric_init demo_builtins demo_services (VStr "soon") (spec "Success" []) start
  = (Raise TypeError, {| world := epoch + 1; events := [] |}).
Proof.
  exact (window_days_must_be_a_number demo_builtins demo_services (VStr "soon")
           (spec "Success" []) (spec_items "Success" []) 1%float start
           eq_refl eq_refl eq_refl).
Defined.

(** A multiplier given as [null]. *)
Lemma multiplier_must_convert_demo :
  SingleMetric_init demo_builtins demo_services (VInt 1)
                    (spec "Success" [("multiplier"%string, VNone)]) start
  = (Raise TypeError, start).
Proof.
  apply (proj2 (multiplier_must_convert demo_builtins demo_services (VInt 1)
                  (spec "Success" [("multiplier"%string, VNone)])
                  (spec_items "Success" [("multiplier"%string, VNone)]) start
                  eq_refl)).
  reflexivity.
Defined.

(** The entry without numerator, between two entries that construct. *)
Lemma rejected_entry_leaves_no_trace_demo :
  fst (parse_sli_configs demo_builtins demo_services demo_globals mixed start)
  = fst (parse_sli_configs demo_builtins demo_services demo_globals
           (VDict [("availability"%string, availability);
                   ("backwards"%string, backwards)]) start).
Proof.
  exact (proj1 (rejected_entry_leaves_no_trace demo_builtins demo_services demo_globals
                  [("availability"%string, availability)] "headless" headless
                  [("backwards"%string, backwards)] TypeError start
                  (fun t => eq_refl) eq_refl)).
Defined.

(** A configuration whose second entry reaches back before the year 1:
    parsing raises the [OverflowError] of that entry's construction. *)
Lemma parse_sli_json_failures_demo :
  exists before name sli_config after slis s1,
    overflowing_later = VDict (before ++ (name, sli_config) :: after) /\
    foldM (parse_sli demo_builtins demo_services demo_globals) before [] start
    = (Ok slis, s1) /\
    SLI_init demo_builtins demo_services demo_globals sli_config s1
    = (Raise OverflowError,
       snd (parse_sli_json demo_builtins demo_services demo_globals
                           (json_text overflowing_later) start)) /\
    parse_catches OverflowError = false.
Proof.
  destruct (parse_sli_json_failures demo_builtins demo_services demo_globals
              (json_text overflowing_later) overflowing_later start
              (snd (parse_sli_json demo_builtins demo_services demo_globals
                                   (json_text overflowing_later) start))
              OverflowError
              ltac:(vm_compute; reflexivity) ltac:(vm_compute; reflexivity))
    as [(H & _) | H].
  - exfalso. exact (H _ eq_refl).
  - exact H.
Defined.

(** The batch written to the locked namespace. *)
Lemma publish_slis_failures_demo :
  exists name v evs,
    In name (map fst (fst (parsed pair))) /\
    events (snd (publish_slis demo_builtins demo_services (fst (parsed pair))
                              "locked" "prod" (snd (parsed pair))))
    = evs ++ [EvPut (metric_data_kwargs "locked" "prod" name v)].
Proof.
  apply (proj2 (publish_slis_failures demo_builtins demo_services (fst (parsed pair))
                  "locked" "prod" (snd (parsed pair))
                  (snd (publish_slis demo_builtins demo_services (fst (parsed pair))
                                     "locked" "prod" (snd (parsed pair))))
                  (ClientError "AccessDenied") ltac:(vm_compute; reflexivity))).
  reflexivity.
Defined.

(** An invocation on the batch of four SLIs. *)
Lemma invocation_completes_demo :
  fst (invocation demo_builtins demo_services
                  [("SLI_NAMESPACE", "sli"); ("SLI_PREFIX", "prod");
                   ("SLIS", json_text batch); ("WINDOW_DAYS", "30")]%string
                  start)
  = Ok tt.
Proof.
  assert (Hnd : NoDup (map fst [("availability"%string, availability);
                                ("idle"%string, idle); ("refused"%string, refused);
                                ("monthly"%string, availability_default)])).
  { repeat constructor; cbn; intuition discriminate. }
  rewrite (proj1 (invocation_completes demo_builtins demo_services
                    [("SLI_NAMESPACE", "sli"); ("SLI_PREFIX", "prod");
                     ("SLIS", json_text batch); ("WINDOW_DAYS", "30")]%string
                    "sli" "prod" (json_text batch) "30" 30
                    [("availability"%string, availability); ("idle"%string, idle);
                     ("refused"%string, refused);
                     ("monthly"%string, availability_default)]
                    start eq_refl eq_refl eq_refl eq_refl eq_refl
                    ltac:(vm_compute; reflexivity) Hnd
                    ltac:(vm_compute; reflexivity) ltac:(vm_compute; reflexivity))).
  reflexivity.
Defined.

(** Three calls after the first one give the first client. *)
Lemma client_is_made_once_demo :
  Cloudwatch.clients demo_boto3_client 3 (Some 0%nat, 1%nat)
  = ([inr 0%nat; inr 0%nat; inr 0%nat], (Some 0%nat, 1%nat)).
Proof.
  exact (proj1 (client_is_made_once demo_boto3_client (None, 0%nat) (Some 0%nat, 1%nat))
               0%nat eq_refl 3%nat).
Defined.

(** The successes are fetched twice with the same result. *)
Lemma SingleMetric_sum_repeatable_demo :
  fst (SingleMetric_sum demo_services (metric (spec "Success" []))
         (snd (SingleMetric_sum demo_services (metric (spec "Success" [])) start)))
  = fst (SingleMetric_sum demo_services (metric (spec "Success" [])) start).
Proof.
  apply SingleMetric_sum_repeatable. reflexivity.
Defined.

(** Three datapoints, the second of which carries [Average] only, read
    through [Sum]: the first is added, the second raises, the third is not
    looked at. *)
Lemma SingleMetric_sum_first_missing_key_demo :
  exists key,
    fst (SingleMetric_sum demo_services (metric (spec "Gappy" [])) start)
    = Raise (KeyError key).
Proof.
  destruct (SingleMetric_sum_first_missing_key demo_services
              (metric (spec "Gappy" [])) start
              (response [datapoint "Sum" 4; datapoint "Average" 7;
                         datapoint "Sum" 5]) epoch
              [datapoint "Sum" 4] (datapoint "Average" 7) [datapoint "Sum" 5]
              eq_refl eq_refl
              ltac:(repeat constructor; eexists _, _; split; reflexivity)
              eq_refl)
    as (key & H).
  exists key. rewrite H. reflexivity.
Defined.
